(** * GPT4Vision client (dsp/modules/gpt4vision.py): a shallow embedding

    The module is a thin adapter around a remote chat-completion API.  The
    embedding follows the Python source function by function:

    - Python objects (kwargs, messages, responses, history records) are
      values of one inductive type [value]; a [dict] is an insertion-ordered
      association list, as in CPython; a [float] is a binary64 float;
    - exceptions and mutable state (the three cache stores, the call
      histories of the objects, the usage log file, the clock) are threaded
      through a state-and-exception monad [M]: a function that raises keeps
      the state changes it made before raising;
    - the collaborators that are not part of the module (the remote API,
      [Image.init_from], the switches of [cache_utils], the random jitter of
      the retry decorator, [float.__repr__]) are fields of an environment
      [Env];
    - time is a logical clock: a network call takes the time the environment
      says, a wait takes the time waited, everything else is instantaneous;
    - the [while True] loop of the retry decorator takes fuel.

    Assertions are enabled (the interpreter does not run with [-O]). *)

From Stdlib Require Import ZArith QArith Qround Lqa String Ascii List DecimalString Floats.
From stdpp Require Import gmap strings list fin_maps.

Set Warnings "-inexact-float,-register-all".
Local Open Scope string_scope.
Local Open Scope list_scope.

(** ** Exceptions *)

Inductive exn :=
| AssertionError (msg : string)
| KeyError (key : string)
| TypeError
| AttributeError
| ZeroDivisionError
| ValueError                (* [Image.init_from] on an unsupported input *)
| RateLimitError            (* [openai._exceptions.RateLimitError] *)
| APIError (msg : string).  (* every other failure of the remote call *)

Inductive result (A : Type) :=
| Ok (a : A)
| Raise (e : exn).
Arguments Ok {A} a.
Arguments Raise {A} e.

(** [ERRORS = (openai._exceptions.RateLimitError,)]: the [except] clause of
    the retry decorator matches exactly the members of this tuple. *)
Definition ERRORS (e : exn) : bool :=
  match e with RateLimitError => true | _ => false end.

(** ** Python values *)

Inductive value :=
| VNone
| VBool (b : bool)
| VInt (z : Z)
| VFloat (f : float)
| VStr (s : string)
| VList (l : list value)
| VDict (d : list (string * value)).

(** A [dict] with [str] keys, in insertion order. *)
Abbreviation dict := (list (string * value)).

Module Dict.

(** [k in d] *)
Definition mem (k : string) (d : dict) : bool :=
  existsb (fun kv => String.eqb k (fst kv)) d.

(** [d.get(k)], [None] standing for a missing key *)
Fixpoint get (k : string) (d : dict) : option value :=
  match d with
  | [] => None
  | (k', v) :: d' => if String.eqb k k' then Some v else get k d'
  end.

(** [d[k] = v]: an existing key keeps its position, a new key goes last. *)
Fixpoint set (k : string) (v : value) (d : dict) : dict :=
  match d with
  | [] => [(k, v)]
  | (k', v') :: d' =>
      if String.eqb k k' then (k', v) :: d' else (k', v') :: set k v d'
  end.

(** [del d[k]] *)
Fixpoint del (k : string) (d : dict) : dict :=
  match d with
  | [] => []
  | (k', v') :: d' => if String.eqb k k' then d' else (k', v') :: del k d'
  end.

(** [{**a, **b}] *)
Definition merge (a b : dict) : dict :=
  fold_left (fun d kv => set (fst kv) (snd kv) d) b a.

Definition keys (d : dict) : list string := List.map fst d.


End Dict.

(** ** [json.dumps] with its default arguments

    [ensure_ascii=True], separators [", "] and [": "], no [sort_keys].
    A character of a [string] is a code point below 256. *)

Module Json.

Definition hex_digit (n : nat) : ascii :=
  match n with
  | 0 => "0" | 1 => "1" | 2 => "2" | 3 => "3" | 4 => "4" | 5 => "5"
  | 6 => "6" | 7 => "7" | 8 => "8" | 9 => "9" | 10 => "a" | 11 => "b"
  | 12 => "c" | 13 => "d" | 14 => "e" | _ => "f"
  end%char.

Definition backslash : ascii := "\"%char.
Definition dquote : ascii := "034"%char.

(** [ESCAPE_ASCII] and [ESCAPE_DCT] of [json.encoder]: the backslash, the
    double quote and everything outside [' '..'~'] is escaped. *)
Definition escape_char (c : ascii) : string :=
  let n := nat_of_ascii c in
  let esc (x : ascii) := String backslash (String x EmptyString) in
  if Nat.eqb n 92 then esc backslash
  else if Nat.eqb n 34 then esc dquote
  else if Nat.eqb n 8 then esc "b"%char
  else if Nat.eqb n 12 then esc "f"%char
  else if Nat.eqb n 10 then esc "n"%char
  else if Nat.eqb n 13 then esc "r"%char
  else if Nat.eqb n 9 then esc "t"%char
  else if (Nat.ltb n 32 || Nat.ltb 126 n)%bool then
    String backslash
      (String "u" (String "0" (String "0"
         (String (hex_digit (n / 16)) (String (hex_digit (n mod 16)) EmptyString)))))
  else String c EmptyString.

Fixpoint escape (s : string) : string :=
  match s with
  | EmptyString => EmptyString
  | String c s' => escape_char c +:+ escape s'
  end.

Definition quote (s : string) : string :=
  String dquote (escape s +:+ String dquote EmptyString).

Fixpoint join (sep : string) (l : list string) : string :=
  match l with
  | [] => ""
  | [x] => x
  | x :: l' => x +:+ sep +:+ join sep l'
  end.

(** [int.__repr__] *)
Definition int_repr (z : Z) : string := NilZero.string_of_int (Z.to_int z).

Section Dumps.
(** [float.__repr__] (with [NaN] and [Infinity] as [json] spells them)
    is left to the environment. *)
Variable float_repr : float -> string.

Fixpoint dumps (v : value) : string :=
  match v with
  | VNone => "null"
  | VBool true => "true"
  | VBool false => "false"
  | VInt z => int_repr z
  | VFloat f => float_repr f
  | VStr s => quote s
  | VList l => "[" +:+ join ", " (List.map dumps l) +:+ "]"
  | VDict d =>
      "{" +:+ join ", "
               (List.map (fun kv => let '(k, x) := kv in quote k +:+ ": " +:+ dumps x) d)
          +:+ "}"
  end.
End Dumps.

End Json.

(** ** Operations of the Python data model used by the module *)

Definition rbind {A B} (r : result A) (k : A -> result B) : result B :=
  match r with
  | Ok a => k a
  | Raise e => Raise e
  end.

Notation "'let+' x ':=' r 'in' k" := (rbind r (fun x => k))
  (at level 10, x name, r at level 100, k at level 200).

Fixpoint rmap {A B} (f : A -> result B) (l : list A) : result (list B) :=
  match l with
  | [] => Ok []
  | x :: l' => let+ y := f x in let+ ys := rmap f l' in Ok (y :: ys)
  end.

(** A list comprehension with a condition: [[c for c in l if p(c)]]. *)
Fixpoint rfilter {A} (p : A -> result bool) (l : list A) : result (list A) :=
  match l with
  | [] => Ok []
  | x :: l' =>
      let+ b := p x in
      let+ ys := rfilter p l' in
      Ok (if b then x :: ys else ys)
  end.

Module Py.

(** [v[k]] with a [str] subscript *)
Definition getitem (v : value) (k : string) : result value :=
  match v with
  | VDict d =>
      match Dict.get k d with
      | Some x => Ok x
      | None => Raise (KeyError k)
      end
  | _ => Raise TypeError
  end.

(** [v.get(k)] *)
Definition get (v : value) (k : string) : result value :=
  match v with
  | VDict d => Ok (default VNone (Dict.get k d))
  | _ => Raise AttributeError
  end.

(** [v == s] for a [str] literal [s] *)
Definition is_str (s : string) (v : value) : bool :=
  match v with
  | VStr s' => String.eqb s' s
  | _ => false
  end.

(** [bool(v)] *)
Definition truthy (v : value) : bool :=
  match v with
  | VNone => false
  | VBool b => b
  | VInt z => negb (Z.eqb z 0)
  | VFloat f => negb (PrimFloat.eqb f 0)
  | VStr s => negb (String.eqb s "")
  | VList l => match l with [] => false | _ => true end
  | VDict d => match d with [] => false | _ => true end
  end.

Fixpoint chars (s : string) : list value :=
  match s with
  | EmptyString => []
  | String c s' => VStr (String c EmptyString) :: chars s'
  end.

(** [iter(v)]: the elements a [for] loop or a comprehension visits *)
Definition iter (v : value) : result (list value) :=
  match v with
  | VList l => Ok l
  | VStr s => Ok (chars s)
  | VDict d => Ok (List.map (fun kv => VStr (fst kv)) d)
  | _ => Raise TypeError
  end.

(** [len(v)] *)
Definition len (v : value) : result nat :=
  match v with
  | VList l => Ok (length l)
  | VStr s => Ok (String.length s)
  | VDict d => Ok (length d)
  | _ => Raise TypeError
  end.

(** [float(z)]; exact for [|z| < 2^53]. *)
Definition float_of_Z (z : Z) : float :=
  if (z <? 0)%Z then PrimFloat.opp (PrimFloat.of_uint63 (Uint63.of_Z (- z)))
  else PrimFloat.of_uint63 (Uint63.of_Z z).

Definition Z_of_bool (b : bool) : Z := if b then 1 else 0.

(** [a + b] on numbers ([bool] is a subclass of [int]) *)
Definition add (a b : value) : result value :=
  let num (v : value) : option (Z + float) :=
    match v with
    | VBool b => Some (inl (Z_of_bool b))
    | VInt z => Some (inl z)
    | VFloat f => Some (inr f)
    | _ => None
    end in
  match num a, num b with
  | Some (inl x), Some (inl y) => Ok (VInt (x + y))
  | Some (inl x), Some (inr g) => Ok (VFloat (PrimFloat.add (float_of_Z x) g))
  | Some (inr f), Some (inl y) => Ok (VFloat (PrimFloat.add f (float_of_Z y)))
  | Some (inr f), Some (inr g) => Ok (VFloat (PrimFloat.add f g))
  | _, _ => Raise TypeError
  end.

(** [sum(v)] *)
Definition sum (v : value) : result value :=
  let+ l := iter v in
  fold_left (fun acc x => let+ a := acc in add a x) l (Ok (VInt 0)).

(** [s / n] for a number [s] and a length [n] *)
Definition truediv (s : value) (n : nat) : result float :=
  match s with
  | VBool _ | VInt _ | VFloat _ =>
      match n with
      | O => Raise ZeroDivisionError
      | _ =>
          let d := float_of_Z (Z.of_nat n) in
          match s with
          | VFloat f => Ok (PrimFloat.div f d)
          | VInt z => Ok (PrimFloat.div (float_of_Z z) d)
          | VBool b => Ok (PrimFloat.div (float_of_Z (Z_of_bool b)) d)
          | _ => Raise TypeError
          end
      end
  | _ => Raise TypeError
  end.

(** [v > 1] *)
Definition gt_one (v : value) : result bool :=
  match v with
  | VBool _ => Ok false
  | VInt z => Ok (1 <? z)%Z
  | VFloat f => Ok (PrimFloat.ltb 1 f)
  | _ => Raise TypeError
  end.

(** [v[:n]] *)
Definition slice_to (n : nat) (v : value) : result value :=
  match v with
  | VList l => Ok (VList (firstn n l))
  | VStr s => Ok (VStr (String.substring 0 n s))
  | _ => Raise TypeError
  end.

(** [x in v] followed by [v.index(x) + 1] for a [str] literal [x]:
    [None] when [x] does not occur.  A list is searched for an element equal
    to [x], a string for the substring [x]; a dictionary that has the key
    [x] has no [index] method. *)
Fixpoint list_index (x : string) (l : list value) : option nat :=
  match l with
  | [] => None
  | v :: l' => if is_str x v then Some 0 else S <$> list_index x l'
  end.

Definition index_after (x : string) (v : value) : result (option nat) :=
  match v with
  | VList l => Ok (S <$> list_index x l)
  | VStr s => Ok (S <$> String.index 0 x s)
  | VDict d => if Dict.mem x d then Raise AttributeError else Ok None
  | _ => Raise TypeError
  end.

End Py.

(** ** Program state *)

(** [dspy.primitives.vision.Image]: only [image_url] is read here. *)
Record Image := { image_url : string }.

(** The [image] argument: [Union[str, np.ndarray, Image]]. *)
Inductive image_arg :=
| ImgStr (s : string)
| ImgArray (a : list Z)
| ImgObj (i : Image).

(** The two kinds of lines the module writes to ["openai_usage.log"].  A
    record keeps the values a line is formatted from: the wait of a backoff
    line is the wait the loop is about to sleep, which the line shows to one
    decimal ([{wait:0.1f}]). *)
Inductive log_record :=
| LogBackoff (wait : Q) (tries : nat) (kwargs : dict)
| LogTokens (total_tokens : value).

(** The attributes of a [GPT4Vision] object. *)
Record GPT4Vision := {
  provider : string;
  model_type : string;
  system_prompt : option string;
  kwargs : dict;
  history : list value
}.

Definition with_history (h : list value) (o : GPT4Vision) : GPT4Vision :=
  {| provider := provider o; model_type := model_type o;
     system_prompt := system_prompt o; kwargs := kwargs o; history := h |}.

Record world := {
  lru : gmap string value;            (* the [functools.lru_cache] table *)
  notebook_store : gmap string value; (* the store behind [NotebookCacheMemory] *)
  disk_store : gmap string value;     (* the store behind [CacheMemory] *)
  net_calls : list string;            (* requests sent to the remote API, oldest first *)
  clock : Q;                          (* wall-clock time *)
  usage_log : list log_record;        (* ["openai_usage.log"] *)
  heap : list GPT4Vision;             (* the objects, addressed by index *)
  openai_api_type : string;
  openai_api_key : option string;
  openai_base_url : option string
}.

Definition set_lru (f : gmap string value -> gmap string value) (w : world) : world :=
  {| lru := f (lru w); notebook_store := notebook_store w; disk_store := disk_store w;
     net_calls := net_calls w; clock := clock w; usage_log := usage_log w;
     heap := heap w; openai_api_type := openai_api_type w;
     openai_api_key := openai_api_key w; openai_base_url := openai_base_url w |}.

Definition set_notebook_store (f : gmap string value -> gmap string value) (w : world) : world :=
  {| lru := lru w; notebook_store := f (notebook_store w); disk_store := disk_store w;
     net_calls := net_calls w; clock := clock w; usage_log := usage_log w;
     heap := heap w; openai_api_type := openai_api_type w;
     openai_api_key := openai_api_key w; openai_base_url := openai_base_url w |}.

Definition set_disk_store (f : gmap string value -> gmap string value) (w : world) : world :=
  {| lru := lru w; notebook_store := notebook_store w; disk_store := f (disk_store w);
     net_calls := net_calls w; clock := clock w; usage_log := usage_log w;
     heap := heap w; openai_api_type := openai_api_type w;
     openai_api_key := openai_api_key w; openai_base_url := openai_base_url w |}.

Definition set_net_calls (f : list string -> list string) (w : world) : world :=
  {| lru := lru w; notebook_store := notebook_store w; disk_store := disk_store w;
     net_calls := f (net_calls w); clock := clock w; usage_log := usage_log w;
     heap := heap w; openai_api_type := openai_api_type w;
     openai_api_key := openai_api_key w; openai_base_url := openai_base_url w |}.

Definition set_clock (f : Q -> Q) (w : world) : world :=
  {| lru := lru w; notebook_store := notebook_store w; disk_store := disk_store w;
     net_calls := net_calls w; clock := f (clock w); usage_log := usage_log w;
     heap := heap w; openai_api_type := openai_api_type w;
     openai_api_key := openai_api_key w; openai_base_url := openai_base_url w |}.

Definition set_usage_log (f : list log_record -> list log_record) (w : world) : world :=
  {| lru := lru w; notebook_store := notebook_store w; disk_store := disk_store w;
     net_calls := net_calls w; clock := clock w; usage_log := f (usage_log w);
     heap := heap w; openai_api_type := openai_api_type w;
     openai_api_key := openai_api_key w; openai_base_url := openai_base_url w |}.

Definition set_heap (f : list GPT4Vision -> list GPT4Vision) (w : world) : world :=
  {| lru := lru w; notebook_store := notebook_store w; disk_store := disk_store w;
     net_calls := net_calls w; clock := clock w; usage_log := usage_log w;
     heap := f (heap w); openai_api_type := openai_api_type w;
     openai_api_key := openai_api_key w; openai_base_url := openai_base_url w |}.

Definition set_openai (ty : string) (key base : option string) (w : world) : world :=
  {| lru := lru w; notebook_store := notebook_store w; disk_store := disk_store w;
     net_calls := net_calls w; clock := clock w; usage_log := usage_log w;
     heap := heap w; openai_api_type := ty;
     openai_api_key := key; openai_base_url := base |}.

(** A process that has just imported the module. *)
Definition fresh_world : world :=
  {| lru := ∅; notebook_store := ∅; disk_store := ∅; net_calls := []; clock := 0;
     usage_log := []; heap := []; openai_api_type := "open_ai";
     openai_api_key := None; openai_base_url := None |}.

(** ** The environment of the module *)

Record Env := {
  (** [dsp.modules.cache_utils.cache_turn_on] *)
  cache_turn_on : bool;
  (** whether [CacheMemory.cache] and [NotebookCacheMemory.cache] (also of
      [cache_utils]) memoize in their store or pass the call through *)
  cache_memory_on : bool;
  notebook_memory_on : bool;
  (** [dsp.settings.log_openai_usage] *)
  log_openai_usage : bool;
  (** [float.__repr__] *)
  float_repr : float -> string;
  (** [Image.init_from] *)
  init_from : image_arg -> result Image;
  (** [openai.chat.completions.create], called on the keyword arguments
      that [json.loads(s)] gives back, as the remote end answers the [n]-th
      request of the process: the outcome and the time the call takes *)
  create : nat -> string -> result value * Q;
  (** [backoff.full_jitter]: the draw [random.uniform(0, value)] made before
      the retry that follows the [tries]-th attempt *)
  jitter : nat -> Q -> Q
}.

(** ** The state-and-exception monad *)

Definition M (A : Type) : Type := world -> result A * world.

Definition ret {A} (a : A) : M A := fun w => (Ok a, w).
Definition raise {A} (e : exn) : M A := fun w => (Raise e, w).
Definition lift {A} (r : result A) : M A := fun w => (r, w).
Definition bind {A B} (m : M A) (k : A -> M B) : M B :=
  fun w =>
    match m w with
    | (Ok a, w') => k a w'
    | (Raise e, w') => (Raise e, w')
    end.
Definition gets {A} (f : world -> A) : M A := fun w => (Ok (f w), w).
Definition modify (f : world -> world) : M unit := fun w => (Ok tt, f w).

Notation "'let*' x ':=' m 'in' k" := (bind m (fun x => k))
  (at level 10, x name, m at level 100, k at level 200).
Notation "m ';;;' k" := (bind m (fun _ => k))
  (at level 100, k at level 200, right associativity).

(** [bool(s)] for an [Optional[str]] *)
Definition str_truthy (o : option string) : bool :=
  match o with
  | Some s => negb (String.eqb s "")
  | None => false
  end.

(** ** The retry decorator: [backoff.on_exception]

    The loop of the [backoff] package for a synchronous target.  [tries]
    and [start] are its local variables; [elapsed] is read at the top of an
    iteration, before the target runs, and is what [max_time] is compared
    with after the target has raised.  The wait is the jittered value of the
    wait generator, cut to [max_time - elapsed].  There is no [max_tries],
    no [giveup] predicate and no [on_giveup] handler at the one place the
    module uses the decorator. *)

(** Python's [min] of two numbers. *)
Definition Qmin (a b : Q) : Q := if Qle_bool a b then a else b.

(** [backoff.expo()]: 1, 2, 4, ... *)
Definition expo (n : nat) : Q := inject_Z (2 ^ Z.of_nat n).

Section Decorator.
Context {A : Type}.
Variable jitter_draw : nat -> Q -> Q.
Variable wait_gen : nat -> Q.
Variable exception : exn -> bool.
Variable max_time : Q.
Variable on_backoff : Q -> nat -> world -> world.
Variable target : M A.

Fixpoint retry (fuel tries : nat) (start : Q) (w : world) : option (result A * world) :=
  match fuel with
  | O => None
  | S fuel' =>
      let tries := S tries in
      let elapsed := (clock w - start)%Q in
      match target w with
      | (Ok r, w1) => Some (Ok r, w1)
      | (Raise e, w1) =>
          if exception e then
            if Qle_bool max_time elapsed then Some (Raise e, w1)
            else
              let seconds :=
                Qmin (jitter_draw tries (wait_gen (pred tries))) (max_time - elapsed) in
              let w2 := on_backoff seconds tries w1 in
              retry fuel' tries start (set_clock (fun t => t + seconds)%Q w2)
          else Some (Raise e, w1)
      end
  end.

Definition on_exception (fuel : nat) (w : world) : option (result A * world) :=
  retry fuel 0 (clock w) w.
End Decorator.

(** ** The module *)

Section Program.
Variable E : Env.

(** [backoff_hdlr]: one line in the log per retry *)
Definition backoff_hdlr (kwargs : dict) (wait : Q) (tries : nat) (w : world) : world :=
  set_usage_log (fun l => l ++ [LogBackoff wait tries kwargs]) w.

(** [GPT4Vision.__init__]; the result is the address of the new object.
    ([VLM.__init__] is outside the module; every attribute read below is set
    here.) *)
Definition __init__ (model : string) (api_key : option string) (api_provider : string)
    (api_base model_type system_prompt : option string) (kwargs : dict) : M nat :=
  modify (fun w =>
    set_openai api_provider
      (if str_truthy api_key then api_key else openai_api_key w)
      (if str_truthy api_base then api_base else openai_base_url w) w) ;;;
  let default_model_type := "vision" in
  let self :=
    {| provider := "openai";
       model_type := if str_truthy model_type then default "" model_type
                     else default_model_type;
       system_prompt := system_prompt;
       kwargs :=
         Dict.set "model" (VStr model)
           (Dict.merge
              [("temperature", VFloat 0.0); ("max_tokens", VInt 150); ("top_p", VInt 1);
               ("frequency_penalty", VInt 0); ("presence_penalty", VInt 0); ("n", VInt 1)]
              kwargs);
       history := [] |} in
  let* addr := gets (fun w => length (heap w)) in
  modify (set_heap (fun h => h ++ [self])) ;;;
  ret addr.

(** Reading an attribute of [self]. *)
Definition attr {A} (self : nat) (f : GPT4Vision -> A) : M A :=
  fun w =>
    match heap w !! self with
    | Some o => (Ok (f o), w)
    | None => (Raise AttributeError, w)
    end.

(** [log_usage] *)
Definition log_usage (response : value) : M unit :=
  let* usage_data := lift (Py.get response "usage") in
  if Py.truthy usage_data then
    let* total_tokens := lift (Py.get usage_data "total_tokens") in
    modify (set_usage_log (fun l => l ++ [LogTokens total_tokens]))
  else ret tt.

(** *** The two cache tiers and the network call *)

Definition openai_chat_completions_create (stringify_request : string) : M value :=
  fun w =>
    let '(r, d) := create E (length (net_calls w)) stringify_request in
    (r, set_clock (fun t => t + d)%Q
          (set_net_calls (fun l => l ++ [stringify_request]) w)).

(** Modelled from the spec: the [cache] decorator of [CacheMemory] and of
    [NotebookCacheMemory] ([dsp.modules.cache_utils] is not part of the
    module).  The store maps the serialized request to the raw response,
    supports get and put and never evicts; a disabled store is bypassed
    entirely.  A call that raises stores nothing. *)
Definition memory_cache (enabled : bool)
    (store : world -> gmap string value)
    (set_store : (gmap string value -> gmap string value) -> world -> world)
    (f : string -> M value) (key : string) : M value :=
  if enabled then
    let* hit := gets (fun w => store w !! key) in
    match hit with
    | Some v => ret v
    | None =>
        let* v := f key in
        modify (set_store (fun m => <[key := v]> m)) ;;;
        ret v
    end
  else f key.

(** [functools.lru_cache(maxsize=None if cache_turn_on else 0)]: an
    unbounded table, or with [maxsize=0] no table at all. *)
Definition lru_cache (unbounded : bool) (f : string -> M value) (key : string) : M value :=
  if unbounded then
    let* hit := gets (fun w => lru w !! key) in
    match hit with
    | Some v => ret v
    | None =>
        let* v := f key in
        modify (set_lru (fun m => <[key := v]> m)) ;;;
        ret v
    end
  else f key.

Definition cached_gpt4vision_chat_request : string -> M value :=
  memory_cache (cache_memory_on E) disk_store set_disk_store
    openai_chat_completions_create.

Definition cached_gpt4vision_chat_request_wrapped : string -> M value :=
  lru_cache (cache_turn_on E)
    (memory_cache (notebook_memory_on E) notebook_store set_notebook_store
       cached_gpt4vision_chat_request).

(** [ChatCompletion.model_dump()]: a completion object is represented by
    the dictionary it dumps to. *)
Definition model_dump (c : value) : value := c.

Definition chat_request (stringify_request : string) : M value :=
  let* c := cached_gpt4vision_chat_request_wrapped stringify_request in
  ret (model_dump c).

(** *** The request formatter and [basic_request] *)

(** The message content: lines 103-118. *)
Definition content_of (prompt : string) (image : option Image) : value :=
  match image with
  | Some img =>
      VList [VDict [("type", VStr "text"); ("text", VStr prompt)];
             VDict [("type", VStr "image_url");
                    ("image_url", VDict [("url", VStr (image_url img))])]]
  | None => VStr prompt
  end.

(** The request dictionary: lines 101 and 119-122. *)
Definition build_kwargs (o : GPT4Vision) (content : value) (call_kwargs : dict) : dict :=
  let kwargs := Dict.merge (kwargs o) call_kwargs in
  let messages := [VDict [("role", VStr "user"); ("content", content)]] in
  let messages :=
    if str_truthy (system_prompt o)
    then VDict [("role", VStr "system");
                ("content", VStr (default "" (system_prompt o)))] :: messages
    else messages in
  Dict.set "messages" (VList messages) kwargs.

(** The cache key: line 124. *)
Definition stringify (kwargs : dict) : string :=
  Json.dumps (float_repr E) (VDict kwargs).

(** [basic_request].  The [image] that line 133 tests and resolves a
    second time is the [Image] object of line 104, or [None]; an object is
    truthy. *)
Definition basic_request (self : nat) (prompt : string) (image : option image_arg)
    (kwargs : dict) : M value :=
  let raw_kwargs := kwargs in
  let* o := attr self id in
  let* image :=
    match image with
    | Some i => let* img := lift (init_from E i) in ret (Some img)
    | None => ret None
    end in
  let kwargs := build_kwargs o (content_of prompt image) kwargs in
  let stringify_request := stringify kwargs in
  let kwargs := [("stringify_request", VStr stringify_request)] in
  let* response := chat_request stringify_request in
  let* image_field :=
    match image with
    | Some img =>
        let* img' := lift (init_from E (ImgObj img)) in ret (VStr (image_url img'))
    | None => ret VNone
    end in
  let record :=
    VDict [("prompt", VStr prompt); ("image", image_field); ("response", response);
           ("kwargs", VDict kwargs); ("raw_kwargs", VDict raw_kwargs)] in
  modify (set_heap (alter (fun o => with_history (history o ++ [record]) o) self)) ;;;
  ret response.

(** The body of [request], and [request] under its decorator.  Every
    attempt gets the keyword arguments of the call afresh; the handler logs
    them as the caller passed them. *)
Definition request_body (self : nat) (prompt : string) (image : option image_arg)
    (kwargs : dict) : M value :=
  let kwargs := if Dict.mem "model_type" kwargs then Dict.del "model_type" kwargs
                else kwargs in
  basic_request self prompt image kwargs.

Definition request (self : nat) (prompt : string) (image : option image_arg)
    (kwargs : dict) (fuel : nat) : world -> option (result value * world) :=
  on_exception (jitter E) expo ERRORS 10 (backoff_hdlr kwargs)
    (request_body self prompt image kwargs) fuel.

(** *** The response normalizer *)

Definition _get_choice_text (model_type : string) (choice : value) : result value :=
  if String.eqb model_type "chat" then
    let+ message := Py.getitem choice "message" in
    Py.getitem message "content"
  else Py.getitem choice "text".

(** [c["finish_reason"] != "length"] *)
Definition completed (c : value) : result bool :=
  let+ finish_reason := Py.getitem c "finish_reason" in
  Ok (negb (Py.is_str "length" finish_reason)).

(** Lines 200-209: the score of one choice. *)
Definition avglog (c : value) : result float :=
  let+ lp := Py.getitem c "logprobs" in
  let+ tokens := Py.getitem lp "tokens" in
  let+ lp' := Py.getitem c "logprobs" in
  let+ logprobs := Py.getitem lp' "token_logprobs" in
  let+ index := Py.index_after "<|endoftext|>" tokens in
  let+ logprobs :=
    match index with
    | Some i => let+ _ := Py.slice_to i tokens in Py.slice_to i logprobs
    | None => Ok logprobs
    end in
  let+ s := Py.sum logprobs in
  let+ n := Py.len logprobs in
  Py.truediv s n.

(** [<] on the pairs [(avglog, text)]: the first components decide unless
    they are equal.  Texts are compared as [str]; two [None] are equal, and
    any other pair of texts is not ordered. *)
Definition text_lt (a b : value) : result bool :=
  match a, b with
  | VStr x, VStr y => Ok (String.ltb x y)
  | VNone, VNone => Ok false
  | _, _ => Raise TypeError
  end.

Definition tuple_lt (x y : float * value) : result bool :=
  if PrimFloat.eqb (fst x) (fst y) then text_lt (snd x) (snd y)
  else Ok (PrimFloat.ltb (fst x) (fst y)).

(** [sorted(l, reverse=True)]: a stable ascending sort of the reversed
    list, reversed again.  The sort is an insertion sort; on pairs that [<]
    orders totally every stable sort gives the same list. *)
Fixpoint insert_sorted (x : float * value) (l : list (float * value))
    : result (list (float * value)) :=
  match l with
  | [] => Ok [x]
  | y :: l' =>
      let+ b := tuple_lt x y in
      if b then Ok (x :: y :: l')
      else let+ r := insert_sorted x l' in Ok (y :: r)
  end.

Definition sorted_reverse (l : list (float * value)) : result (list (float * value)) :=
  let+ s := fold_left (fun acc x => let+ a := acc in insert_sorted x a) (rev l) (Ok []) in
  Ok (rev s).

(** Lines 196-213. *)
Definition sorted_completions (model_type : string) (choices : list value)
    : result (list value) :=
  let+ scored_completions :=
    rmap (fun c =>
            let+ a := avglog c in
            let+ t := _get_choice_text model_type c in
            Ok (a, t)) choices in
  let+ scored_completions := sorted_reverse scored_completions in
  Ok (List.map snd scored_completions).

(** Lines 188-215 of [__call__]. *)
Definition completions_of (model_type : string) (only_completed return_sorted : bool)
    (kwargs : dict) (response : value) : result (list value) :=
  let+ choices := Py.getitem response "choices" in
  let+ choices := Py.iter choices in
  let+ completed_choices := rfilter completed choices in
  let choices :=
    if (only_completed && negb (Nat.eqb (length completed_choices) 0))%bool
    then completed_choices else choices in
  let+ completions := rmap (_get_choice_text model_type) choices in
  let+ sorting :=
    if return_sorted then Py.gt_one (default (VInt 1) (Dict.get "n" kwargs))
    else Ok false in
  if sorting then sorted_completions model_type choices
  else Ok completions.

(** [GPT4Vision.__call__] *)
Definition __call__ (self : nat) (prompt : string) (image : option image_arg)
    (only_completed return_sorted : bool) (kwargs : dict) (fuel : nat)
    : world -> option (result (list value) * world) :=
  fun w =>
    if negb only_completed then Some (Raise (AssertionError "for now"), w)
    else if return_sorted then Some (Raise (AssertionError "for now"), w)
    else
      match request self prompt image kwargs fuel w with
      | None => None
      | Some (Raise e, w1) => Some (Raise e, w1)
      | Some (Ok response, w1) =>
          Some ((let* _ := if log_openai_usage E then log_usage response else ret tt in
                 let* model_type := attr self model_type in
                 lift (completions_of model_type only_completed return_sorted
                         kwargs response)) w1)
      end.

End Program.

(** ** Concrete environments for the examples *)

Module Demo.

Fixpoint pad_zeros (width : nat) (s : string) : string :=
  match width with
  | O => s
  | S n => if Nat.ltb (String.length s) width then pad_zeros n ("0" +:+ s) else s
  end.

Fixpoint strip_zeros (fuel : nat) (n : Z) : Z :=
  match fuel with
  | O => n
  | S fuel' => if ((n mod 10 =? 0) && negb (n =? 0))%Z%bool
               then strip_zeros fuel' (n / 10) else n
  end.

(** A decimal printer for floats: the exact decimal expansion.  It agrees
    with [float.__repr__] on the floats whose expansion has at most 15
    significant digits and magnitude in [1e-4, 1e16) ([0.0], [1.0], [0.5],
    ...), which covers every float of the examples. *)
Definition decimal_repr (f : float) : string :=
  match Prim2SF f with
  | S754_zero s => if s then "-0.0" else "0.0"
  | S754_infinity s => if s then "-Infinity" else "Infinity"
  | S754_nan => "NaN"
  | S754_finite s m e =>
      let sign := if s then "-" else "" in
      if (0 <=? e)%Z then sign +:+ Json.int_repr (Z.pos m * 2 ^ e) +:+ ".0"
      else
        let k := Z.to_nat (- e) in
        let n := (Z.pos m * 5 ^ Z.of_nat k)%Z in
        let ip := (n / 10 ^ Z.of_nat k)%Z in
        let fp := (n mod 10 ^ Z.of_nat k)%Z in
        if (fp =? 0)%Z then sign +:+ Json.int_repr ip +:+ ".0"
        else
          let digits := pad_zeros k (Json.int_repr fp) in
          let kept := String.length (Json.int_repr (strip_zeros k fp))
                      + (String.length digits - String.length (Json.int_repr fp)) in
          sign +:+ Json.int_repr ip +:+ "." +:+ String.substring 0 kept digits
  end.

(** An image resolver: a non-empty string is taken as the reference, an
    [Image] is returned as it is, anything else is refused. *)
Definition resolve_image (i : image_arg) : result Image :=
  match i with
  | ImgStr s => if String.eqb s "" then Raise ValueError else Ok {| image_url := s |}
  | ImgObj img => Ok img
  | ImgArray _ => Raise ValueError
  end.

(** A chat-style choice, as [ChatCompletion.model_dump()] shapes it. *)
Definition chat_choice (finish_reason text : string) : value :=
  VDict [("finish_reason", VStr finish_reason); ("index", VInt 0); ("logprobs", VNone);
         ("message", VDict [("content", VStr text); ("role", VStr "assistant")])].

Definition chat_response (choices : list value) : value :=
  VDict [("id", VStr "chatcmpl-1"); ("choices", VList choices);
         ("usage", VDict [("total_tokens", VInt 42)])].

(** A remote end that answers every request with [response] after [d]
    time units, or fails every request with [e]. *)
Definition env (caching : bool) (answer : nat -> string -> result value * Q) : Env :=
  {| cache_turn_on := caching; cache_memory_on := caching; notebook_memory_on := false;
     log_openai_usage := false; float_repr := decimal_repr;
     init_from := resolve_image;
     create := answer; jitter := fun _ v => v |}.

Definition answers (response : value) (d : Q) : nat -> string -> result value * Q :=
  fun _ _ => (Ok response, d).

Definition fails (e : exn) (d : Q) : nat -> string -> result value * Q :=
  fun _ _ => (Raise e, d).

End Demo.

(** ** Vocabulary of the statements *)

(** The choice carries a finish indicator other than ["length"]. *)
Definition not_length (c : value) : bool :=
  match completed c with
  | Ok b => b
  | Raise _ => false
  end.

(** The choices [__call__] keeps under [only_completed]: the completed ones
    when there is one, all of them otherwise. *)
Definition kept (cs : list value) : list value :=
  if existsb not_length cs then List.filter not_length cs else cs.

(** The key is in none of the three stores. *)
Definition uncached (key : string) (w : world) : Prop :=
  lru w !! key = None /\ notebook_store w !! key = None /\ disk_store w !! key = None.

(** Some store binds [key] to [v]. *)
Definition cached (w : world) (key : string) (v : value) : Prop :=
  lru w !! key = Some v \/ notebook_store w !! key = Some v \/ disk_store w !! key = Some v.

(** The footprint of one attempt, from state [w] to state [w1], outside the
    histories: nothing is written to the log, at most one network call is
    made, and the stores hold nothing new but a successful answer of that
    call. *)
Definition attempt_footprint (E : Env) (w w1 : world) : Prop :=
  usage_log w1 = usage_log w
  /\ (length (net_calls w1) <= S (length (net_calls w)))%nat
  /\ (forall k v, cached w1 k v ->
        cached w k v \/ fst (create E (length (net_calls w)) k) = Ok v).

(** The image that [Image.init_from] makes of the [image] argument. *)
Definition resolves (E : Env) (image : option image_arg) (img : option Image) : Prop :=
  match image with
  | None => img = None
  | Some i => exists resolved, init_from E i = Ok resolved /\ img = Some resolved
  end.

(** The serialized request that [request] sends for these arguments. *)
Definition request_key (E : Env) (o : GPT4Vision) (prompt : string) (img : option Image)
    (kwargs : dict) : string :=
  stringify E
    (build_kwargs o (content_of prompt img)
       (if Dict.mem "model_type" kwargs then Dict.del "model_type" kwargs else kwargs)).

(** The state after a network call for [key] that took [d] time units. *)
Definition after_network_call (key : string) (d : Q) (w : world) : world :=
  set_clock (fun t => t + d)%Q (set_net_calls (fun l => l ++ [key]) w).

(** How [basic_request] resolves its [image] argument: [img] is the image
    embedded in the message, [field] what the history record keeps of it. *)
Definition image_reference (E : Env) (image : option image_arg) (img : option Image)
    (field : value) : Prop :=
  match image with
  | None => img = None /\ field = VNone
  | Some i =>
      exists resolved again,
        init_from E i = Ok resolved /\ init_from E (ImgObj resolved) = Ok again
        /\ img = Some resolved /\ field = VStr (image_url again)
  end.

Module Examples.
Import Demo.

(** A completion-style choice with token log-probabilities. *)
Definition text_choice (text : string) (tokens : list string) (token_logprobs : list float)
    : value :=
  VDict [("finish_reason", VStr "stop"); ("index", VInt 0);
         ("logprobs", VDict [("tokens", VList (List.map VStr tokens));
                             ("token_logprobs", VList (List.map VFloat token_logprobs))]);
         ("text", VStr text)].

(** [GPT4Vision(model_type=mt)] in a fresh process: the object is at
    address 0. *)
Definition client (mt : option string) : world :=
  snd (__init__ "gpt-4-vision-preview" None "openai" None mt None [] fresh_world).

(** The object that [client (Some "chat")] holds at address 0. *)
Definition chat_object : GPT4Vision :=
  {| provider := "openai"; model_type := "chat"; system_prompt := None;
     kwargs := [("temperature", VFloat 0.0); ("max_tokens", VInt 150); ("top_p", VInt 1);
                ("frequency_penalty", VInt 0); ("presence_penalty", VInt 0);
                ("n", VInt 1); ("model", VStr "gpt-4-vision-preview")];
     history := [] |}.

Definition three_choices : value :=
  chat_response [chat_choice "length" "a"; chat_choice "stop" "b"; chat_choice "stop" "c"].

Definition two_truncated : value :=
  chat_response [chat_choice "length" "a"; chat_choice "length" "b"].

Definition low : value := text_choice "low" ["x"; "y"] [-1.0; -1.0]%float.
Definition high : value := text_choice "high" ["x"; "y"; "z"] [-0.1; -0.1; -0.1]%float.
Definition no_logprobs : value :=
  VDict [("finish_reason", VStr "stop"); ("logprobs", VNone); ("text", VStr "t")].
Definition empty_logprobs : value := text_choice "t" [] [].

End Examples.

(** ** Vocabulary of the further properties *)

(** The state after a sequence of cached requests, whatever their outcomes. *)
Definition run_requests (E : Env) (keys : list string) (w : world) : world :=
  fold_left (fun w key => snd (chat_request E key w)) keys w.

(** The time the log says was spent waiting between attempts. *)
Fixpoint waits_sum (l : list log_record) : Q :=
  match l with
  | [] => 0
  | LogBackoff wait _ _ :: l' => wait + waits_sum l'
  | LogTokens _ :: l' => waits_sum l'
  end.

(** The figure that a backoff line shows of a wait, [{wait:0.1f}]: the
    nearest multiple of one tenth, a tie going to the even one. *)
Definition shown_wait (wait : Q) : Q :=
  let n := Qfloor (wait * 10) in
  let m :=
    match (wait * 10 - inject_Z n ?= 1 # 2)%Q with
    | Lt => n
    | Gt => (n + 1)%Z
    | Eq => if Z.even n then n else (n + 1)%Z
    end in
  (inject_Z m * (1 # 10))%Q.

(** The sum of the figures that the backoff lines of a log show. *)
Fixpoint shown_waits_sum (l : list log_record) : Q :=
  match l with
  | [] => 0
  | LogBackoff wait _ _ :: l' => shown_wait wait + shown_waits_sum l'
  | LogTokens _ :: l' => shown_waits_sum l'
  end.

(** An environment whose jitter draws the waits of a list, one per retry,
    and leaves the wait generator's value once the list is used up. *)
Definition with_draws (draws : list Q) (E : Env) : Env :=
  {| cache_turn_on := cache_turn_on E; cache_memory_on := cache_memory_on E;
     notebook_memory_on := notebook_memory_on E; log_openai_usage := log_openai_usage E;
     float_repr := float_repr E; init_from := init_from E; create := create E;
     jitter := fun n v => nth (pred n) draws v |}.

(** The record that [basic_request] appends to the history. *)
Definition history_record (E : Env) (o : GPT4Vision) (prompt : string) (img : option Image)
    (image_field response : value) (kwargs : dict) : value :=
  VDict [("prompt", VStr prompt); ("image", image_field); ("response", response);
         ("kwargs",
          VDict [("stringify_request",
                  VStr (stringify E (build_kwargs o (content_of prompt img) kwargs)))]);
         ("raw_kwargs", VDict kwargs)].

(** The keyword arguments that [request] hands to [basic_request]. *)
Definition without_model_type (kwargs : dict) : dict :=
  if Dict.mem "model_type" kwargs then Dict.del "model_type" kwargs else kwargs.

(** Reading back a string literal that [json.dumps] wrote: the string it
    stands for and what follows its closing quote. *)
Definition hex_value (c : ascii) : option nat :=
  let n := nat_of_ascii c in
  if (Nat.leb 48 n && Nat.leb n 57)%bool then Some (n - 48)
  else if (Nat.leb 97 n && Nat.leb n 102)%bool then Some (n - 87)
  else None.

Definition simple_escape (c : ascii) : option ascii :=
  let n := nat_of_ascii c in
  if Nat.eqb n 92 then Some Json.backslash
  else if Nat.eqb n 34 then Some Json.dquote
  else if Nat.eqb n 98 then Some (ascii_of_nat 8)
  else if Nat.eqb n 102 then Some (ascii_of_nat 12)
  else if Nat.eqb n 110 then Some (ascii_of_nat 10)
  else if Nat.eqb n 114 then Some (ascii_of_nat 13)
  else if Nat.eqb n 116 then Some (ascii_of_nat 9)
  else None.

Fixpoint unquote_body (s : string) : option (string * string) :=
  match s with
  | EmptyString => None
  | String c s' =>
      if Ascii.eqb c Json.dquote then Some (EmptyString, s')
      else if Ascii.eqb c Json.backslash then
        match s' with
        | String x s'' =>
            if Ascii.eqb x "u" then
              match s'' with
              | String _ (String _ (String h (String l rest))) =>
                  match hex_value h, hex_value l, unquote_body rest with
                  | Some a, Some b, Some (v, r) =>
                      Some (String (ascii_of_nat (16 * a + b)) v, r)
                  | _, _, _ => None
                  end
              | _ => None
              end
            else
              match simple_escape x, unquote_body s'' with
              | Some c', Some (v, r) => Some (String c' v, r)
              | _, _ => None
              end
        | EmptyString => None
        end
      else
        match unquote_body s' with
        | Some (v, r) => Some (String c v, r)
        | None => None
        end
  end.

Definition unquote (s : string) : option (string * string) :=
  match s with
  | String c s' => if Ascii.eqb c Json.dquote then unquote_body s' else None
  | EmptyString => None
  end.

(** ** Basic facts about the monad and the normalizer *)

Lemma ERRORS_spec (e : exn) : ERRORS e = true <-> e = RateLimitError.
Proof. destruct e; simpl; split; intros H; congruence. Qed.

Lemma rfilter_completed (cs : list value) :
  Forall (fun c => exists fr, Py.getitem c "finish_reason" = Ok fr) cs ->
  rfilter completed cs = Ok (List.filter not_length cs).
Proof.
  induction 1 as [|c cs [fr Hfr] _ IH]; [reflexivity|].
  cbn [rfilter List.filter]. rewrite IH. unfold not_length, completed.
  rewrite Hfr. cbn.
  destruct (negb (Py.is_str "length" fr)); reflexivity.
Qed.

Lemma existsb_filter_length {A} (p : A -> bool) (l : list A) :
  negb (Nat.eqb (length (List.filter p l)) 0) = existsb p l.
Proof.
  induction l as [|x l IH]; [reflexivity|].
  cbn [List.filter existsb]. destruct (p x); cbn; [reflexivity|apply IH].
Qed.

(** With [only_completed] set and sorting off, the normalizer extracts the
    texts of the kept choices, in the order of the response. *)
Lemma completions_of_kept (mt : string) (kwargs : dict) (response : value) (cs : list value) :
  Py.getitem response "choices" = Ok (VList cs) ->
  Forall (fun c => exists fr, Py.getitem c "finish_reason" = Ok fr) cs ->
  completions_of mt true false kwargs response = rmap (_get_choice_text mt) (kept cs).
Proof.
  intros Hc Hfr. unfold completions_of. rewrite Hc. cbn [rbind Py.iter].
  rewrite (rfilter_completed cs Hfr). cbn [rbind andb].
  rewrite existsb_filter_length. fold (kept cs).
  destruct (rmap (_get_choice_text mt) (kept cs)); reflexivity.
Qed.

(** ** The request formatter and the cache key *)

Lemma dict_mem_In (k : string) (d : dict) : Dict.mem k d = true <-> In k (Dict.keys d).
Proof.
  unfold Dict.mem, Dict.keys. rewrite existsb_exists, in_map_iff. split.
  - intros (kv & Hin & Heq). apply String.eqb_eq in Heq. eauto.
  - intros (kv & Heq & Hin). exists kv. split; [exact Hin|]. apply String.eqb_eq. auto.
Qed.

Lemma dict_get_None (k : string) (d : dict) : k ∉ Dict.keys d -> Dict.get k d = None.
Proof.
  rewrite list_elem_of_In.
  induction d as [|[k' v'] d IH]; cbn; [reflexivity|]. intros Hn.
  destruct (String.eqb_spec k k') as [->|Hne]; [tauto|]. apply IH. tauto.
Qed.

Lemma dict_keys_set (k : string) (v : value) (d : dict) :
  Dict.keys (Dict.set k v d) = if Dict.mem k d then Dict.keys d else Dict.keys d ++ [k].
Proof.
  induction d as [|[k' v'] d IH]; [reflexivity|].
  cbn [Dict.set]. unfold Dict.mem. cbn [existsb fst].
  destruct (String.eqb k k'); cbn [orb]; [reflexivity|]. fold (Dict.mem k d).
  change (Dict.keys ((k', v') :: Dict.set k v d)) with (k' :: Dict.keys (Dict.set k v d)).
  rewrite IH. destruct (Dict.mem k d); reflexivity.
Qed.

Lemma dict_get_set (k' k : string) (v : value) (d : dict) :
  Dict.get k' (Dict.set k v d) = if String.eqb k' k then Some v else Dict.get k' d.
Proof.
  induction d as [|[k0 v0] d IH]; cbn; [reflexivity|].
  destruct (String.eqb_spec k k0) as [->|Hne]; cbn.
  - destruct (String.eqb k' k0); reflexivity.
  - rewrite IH. destruct (String.eqb_spec k' k0) as [->|Hne'].
    + destruct (String.eqb_spec k0 k); congruence.
    + reflexivity.
Qed.

Lemma dict_mem_set (x k : string) (v : value) (d : dict) :
  Dict.mem x (Dict.set k v d) = (Dict.mem x d || String.eqb x k)%bool.
Proof.
  unfold Dict.mem. induction d as [|[k' v'] d IH]; cbn [Dict.set existsb fst].
  - apply orb_comm.
  - destruct (String.eqb_spec k k') as [->|Hne]; cbn [existsb fst].
    + destruct (String.eqb x k'); [reflexivity|]. cbn [orb].
      destruct (existsb _ d); reflexivity.
    + rewrite IH. rewrite orb_assoc. reflexivity.
Qed.

(** The keys of [{**d, **kw}]: those of [d] in their order, then the keys
    that [kw] adds, in the order of [kw]. *)
Lemma dict_keys_merge (d kw : dict) :
  NoDup (Dict.keys kw) ->
  Dict.keys (Dict.merge d kw)
  = Dict.keys d ++ List.filter (fun k => negb (Dict.mem k d)) (Dict.keys kw).
Proof.
  unfold Dict.merge. revert d.
  induction kw as [|[k v] kw IH]; intros d Hnd; [cbn; rewrite app_nil_r; reflexivity|].
  change (Dict.keys ((k, v) :: kw)) with (k :: Dict.keys kw) in *.
  cbn [fold_left fst snd List.filter].
  inversion Hnd as [|? ? Hk Hnd']; subst. rewrite (IH _ Hnd'), dict_keys_set.
  destruct (Dict.mem k d) eqn:Hmem; cbn [negb].
  - f_equal. apply filter_ext_in. intros x Hx. rewrite dict_mem_set.
    destruct (String.eqb_spec x k) as [->|Hne]; [rewrite Hmem|rewrite orb_false_r];
      reflexivity.
  - rewrite <- app_assoc. cbn [app]. do 2 f_equal. apply filter_ext_in. intros x Hx.
    rewrite dict_mem_set.
    destruct (String.eqb_spec x k) as [->|Hne]; [|rewrite orb_false_r; reflexivity].
    exfalso. apply Hk, list_elem_of_In, Hx.
Qed.

(** The values of [{**d, **kw}]: those of [kw] win. *)
Lemma dict_get_merge (k : string) (d kw : dict) :
  NoDup (Dict.keys kw) ->
  Dict.get k (Dict.merge d kw)
  = match Dict.get k kw with Some v => Some v | None => Dict.get k d end.
Proof.
  unfold Dict.merge. revert d.
  induction kw as [|[k0 v0] kw IH]; intros d Hnd; cbn; [reflexivity|].
  inversion Hnd as [|? ? Hk Hnd']; subst. rewrite (IH _ Hnd'), dict_get_set.
  destruct (String.eqb_spec k k0) as [->|Hne]; [|reflexivity].
  rewrite (dict_get_None k0 kw Hk). reflexivity.
Qed.




Lemma NoDup_List_filter {A} (p : A -> bool) (l : list A) :
  NoDup l -> NoDup (List.filter p l).
Proof.
  induction 1 as [|x l Hx Hl IH]; cbn; [constructor|].
  destruct (p x); [|exact IH]. constructor; [|exact IH].
  rewrite list_elem_of_In, filter_In, <- list_elem_of_In. tauto.
Qed.

Lemma dict_keys_merge_NoDup (d kw : dict) :
  NoDup (Dict.keys d) -> NoDup (Dict.keys kw) -> NoDup (Dict.keys (Dict.merge d kw)).
Proof.
  intros Hd Hkw. rewrite dict_keys_merge by exact Hkw. apply NoDup_app.
  split; [exact Hd|]. split; [|apply NoDup_List_filter, Hkw].
  intros x Hx. rewrite list_elem_of_In, filter_In. intros [_ Hnew].
  apply list_elem_of_In, dict_mem_In in Hx. rewrite Hx in Hnew. discriminate.
Qed.


Lemma dict_keys_set_NoDup (k : string) (v : value) (d : dict) :
  NoDup (Dict.keys d) -> NoDup (Dict.keys (Dict.set k v d)).
Proof.
  intros H. rewrite dict_keys_set. destruct (Dict.mem k d) eqn:Hm; [exact H|].
  apply NoDup_app. split; [exact H|]. split; [|apply NoDup_singleton].
  intros x Hx Hk. apply list_elem_of_singleton in Hk as ->.
  apply list_elem_of_In, dict_mem_In in Hx. congruence.
Qed.

(** [__init__] gives the new object options with distinct keys, a model
    type that is never empty, and an empty history. *)
Lemma init_object (model : string) (api_key : option string) (api_provider : string)
    (api_base mt sp : option string) (kw : dict) (w : world) :
  NoDup (Dict.keys kw) ->
  exists o,
    fst (__init__ model api_key api_provider api_base mt sp kw w) = Ok (length (heap w))
    /\ heap (snd (__init__ model api_key api_provider api_base mt sp kw w))
       !! length (heap w) = Some o
    /\ NoDup (Dict.keys (kwargs o))
    /\ model_type o = (if str_truthy mt then default "" mt else "vision")
    /\ history o = [].
Proof.
  intros Hkw. eexists. split; [reflexivity|]. split.
  - cbn. apply list_lookup_middle. reflexivity.
  - cbn. split; [|split; reflexivity].
    apply dict_keys_set_NoDup, dict_keys_merge_NoDup; [|exact Hkw].
    apply (bool_decide_unpack _). vm_compute. exact I.
Qed.




(** ** The two-tier cache *)

Ltac unfold_chat_request :=
  unfold chat_request, cached_gpt4vision_chat_request_wrapped,
    cached_gpt4vision_chat_request, lru_cache, memory_cache,
    openai_chat_completions_create, model_dump, bind, gets, modify, ret.

(** What a cached request leaves alone: the objects and the log. *)
Lemma chat_request_frame (E : Env) (key : string) (w : world) :
  heap (snd (chat_request E key w)) = heap w
  /\ usage_log (snd (chat_request E key w)) = usage_log w.
Proof.
  unfold_chat_request.
  destruct (cache_turn_on E), (notebook_memory_on E), (cache_memory_on E);
    repeat (match goal with
            | |- context [match ?m !! key with _ => _ end] => destruct (m !! key)
            | |- context [create E ?n key] => destruct (create E n key) as [[?|?] ?]
            end; cbn); auto.
Qed.

(** A request either extends the list of network calls by itself or leaves
    it alone. *)
Lemma chat_request_net_calls (E : Env) (key : string) (w : world) :
  net_calls (snd (chat_request E key w)) = net_calls w
  \/ net_calls (snd (chat_request E key w)) = net_calls w ++ [key].
Proof.
  unfold_chat_request.
  destruct (cache_turn_on E), (notebook_memory_on E), (cache_memory_on E);
    repeat (match goal with
            | |- context [match ?m !! key with _ => _ end] => destruct (m !! key)
            | |- context [create E ?n key] => destruct (create E n key) as [[?|?] ?]
            end; cbn); auto.
Qed.

(** Whatever the stores hold after a request was there before, or is the
    successful answer of the network call of this request: a failure is
    never stored. *)
Lemma chat_request_cached (E : Env) (key : string) (w : world) (k : string) (v : value) :
  cached (snd (chat_request E key w)) k v ->
  cached w k v \/ (k = key /\ fst (create E (length (net_calls w)) key) = Ok v).
Proof.
  unfold cached. unfold_chat_request.
  destruct (cache_turn_on E), (notebook_memory_on E), (cache_memory_on E);
    repeat (match goal with
            | |- context [match ?m !! key with _ => _ end] =>
                let H := fresh "Hm" in destruct (m !! key) eqn:H
            | |- context [create E ?n key] =>
                let H := fresh "Hc" in destruct (create E n key) as [[?|?] ?] eqn:H
            end; cbn);
    auto;
    destruct (decide (k = key)) as [->|Hne];
    rewrite ?lookup_insert_eq, ?lookup_insert_ne by congruence;
    intros [H|[H|H]]; simplify_eq; auto.
Qed.

(** C2, refuted as stated.  With [cache_turn_on] false the memo has
    [maxsize=0]: the first call stores nothing in it, even where the
    persistent store is enabled and is filled; and where the persistent
    store is bypassed too, the second call with the same serialized request
    goes to the network again. *)
Lemma memo_disabled_not_populated :
  let answer := Demo.answers Examples.three_choices 1 in
  let E := {| cache_turn_on := false; cache_memory_on := true; notebook_memory_on := false;
              log_openai_usage := false; float_repr := Demo.decimal_repr;
              init_from := Demo.resolve_image; create := answer; jitter := fun _ v => v |} in
  let w1 := snd (chat_request E "{}" fresh_world) in
  let E' := Demo.env false answer in
  let w1' := snd (chat_request E' "{}" fresh_world) in
  (lru w1 !! "{}" = None /\ disk_store w1 !! "{}" = Some Examples.three_choices)
  /\ (lru w1' !! "{}" = None /\ disk_store w1' !! "{}" = None
      /\ net_calls w1' = ["{}"]
      /\ net_calls (snd (chat_request E' "{}" w1')) = ["{}"; "{}"]).
Proof. vm_compute. repeat split. Qed.

(** C2 (as the code has it).  With caching turned on (the memo unbounded
    and the persistent store enabled), the first call with a serialized
    request that no store holds makes exactly one network call and stores
    the response in the memo and in the persistent store; a second call with
    the same serialized request returns the stored response and changes
    nothing: the network is not called again. *)
Theorem two_tier_cache (E : Env) (key : string) (w : world) (r : value) (d : Q) :
  cache_turn_on E = true ->
  cache_memory_on E = true ->
  uncached key w ->
  create E (length (net_calls w)) key = (Ok r, d) ->
  exists w1,
    chat_request E key w = (Ok r, w1)
    /\ net_calls w1 = net_calls w ++ [key]
    /\ lru w1 !! key = Some r
    /\ disk_store w1 !! key = Some r
    /\ chat_request E key w1 = (Ok r, w1).
Proof.
  intros Hlru Hdisk (Hl & Hn & Hd) Hc.
  unfold_chat_request. rewrite Hlru, Hdisk.
  destruct (notebook_memory_on E); cbn; rewrite Hl, ?Hn; cbn; rewrite Hd, Hc; cbn;
    (eexists; split; [reflexivity|]); cbn; rewrite !lookup_insert_eq; auto.
Qed.

Lemma two_tier_cache_witness :
  exists w1,
    chat_request (Demo.env true (Demo.answers Examples.three_choices 1)) "{}" fresh_world
    = (Ok Examples.three_choices, w1)
    /\ net_calls w1 = [] ++ ["{}"]
    /\ lru w1 !! "{}" = Some Examples.three_choices
    /\ disk_store w1 !! "{}" = Some Examples.three_choices
    /\ chat_request (Demo.env true (Demo.answers Examples.three_choices 1)) "{}" w1
       = (Ok Examples.three_choices, w1).
Proof.
  apply (two_tier_cache (Demo.env true (Demo.answers Examples.three_choices 1)) "{}"
           fresh_world Examples.three_choices 1 eq_refl eq_refl).
  - repeat split; apply lookup_empty.
  - reflexivity.
Defined.

(** ** The call history *)

(** C8.  A call of [basic_request] on an object touches the history of no
    other object.  If it returns a response, exactly one record has been
    appended to the history of the object, and its other attributes are as
    they were.  The record holds the prompt, the reference of the resolved
    image (or [None]), the response and the keyword arguments as the caller
    passed them; under ["kwargs"] it holds not the merged keyword arguments
    but the dictionary that was passed to [chat_request], whose one entry
    ["stringify_request"] is their JSON text.  If the call raises, every
    history is as it was. *)
Theorem basic_request_history (E : Env) (self : nat) (o : GPT4Vision) (prompt : string)
    (image : option image_arg) (kw : dict) (w : world) :
  heap w !! self = Some o ->
  let '(res, w') := basic_request E self prompt image kw w in
  (forall j, j <> self -> heap w' !! j = heap w !! j)
  /\ match res with
     | Ok response =>
         exists (img : option Image) (image_field : value),
           image_reference E image img image_field
           /\ history <$> heap w' !! self
              = Some (history o ++
                      [VDict [("prompt", VStr prompt); ("image", image_field);
                              ("response", response);
                              ("kwargs",
                               VDict [("stringify_request",
                                       VStr (stringify E
                                               (build_kwargs o (content_of prompt img)
                                                  kw)))]);
                              ("raw_kwargs", VDict kw)]])
           /\ provider <$> heap w' !! self = Some (provider o)
           /\ model_type <$> heap w' !! self = Some (model_type o)
           /\ system_prompt <$> heap w' !! self = Some (system_prompt o)
           /\ kwargs <$> heap w' !! self = Some (kwargs o)
     | Raise _ => heap w' = heap w
     end.
Proof.
  intros Ho. unfold basic_request, attr. unfold bind at 1. rewrite Ho.
  assert (Hother : forall (h : list GPT4Vision) f j, j <> self ->
            alter f self h !! j = h !! j).
  { intros h f j Hj. apply list_lookup_alter_ne. congruence. }
  destruct image as [i|]; cbn [id].
  - unfold bind at 1. unfold bind at 1. unfold lift at 1.
    destruct (init_from E i) as [resolved|e] eqn:Hi; [|auto]. cbn [ret].
    unfold bind at 1.
    pose proof (chat_request_frame E
      (stringify E (build_kwargs o (content_of prompt (Some resolved)) kw)) w) as [Hh _].
    destruct (chat_request E _ w) as [[response|e] w1]; cbn [snd] in Hh; [|rewrite Hh; auto].
    unfold bind at 1. unfold bind at 1. unfold lift at 1.
    destruct (init_from E (ImgObj resolved)) as [again|e] eqn:Hi2; [|rewrite Hh; auto].
    cbn. rewrite Hh. split; [intros j Hj; apply Hother, Hj|].
    exists (Some resolved), (VStr (image_url again)). split.
    + exists resolved, again. auto.
    + rewrite list_lookup_alter_eq, Ho. repeat split.
  - unfold bind at 1. cbn [ret]. unfold bind at 1.
    pose proof (chat_request_frame E
      (stringify E (build_kwargs o (content_of prompt None) kw)) w) as [Hh _].
    destruct (chat_request E _ w) as [[response|e] w1]; cbn [snd] in Hh; [|rewrite Hh; auto].
    cbn. rewrite Hh. split; [intros j Hj; apply Hother, Hj|].
    exists None, VNone. split; [split; reflexivity|].
    rewrite list_lookup_alter_eq, Ho. repeat split.
Qed.

(** A call with an image and a keyword argument returns, and the history,
    empty before, holds the one record of the call. *)
Lemma basic_request_history_witness :
  let E := Demo.env true (Demo.answers Examples.three_choices 1) in
  exists (response : value) (w' : world),
    basic_request E 0 "hello" (Some (ImgStr "http://host/cat.png")) [("seed", VInt 7)]
      (Examples.client (Some "chat"))
    = (Ok response, w')
    /\ history <$> heap w' !! 0%nat
       = Some [VDict [("prompt", VStr "hello"); ("image", VStr "http://host/cat.png");
                      ("response", response);
                      ("kwargs",
                       VDict [("stringify_request",
                               VStr (stringify E
                                       (build_kwargs Examples.chat_object
                                          (content_of "hello"
                                             (Some {| image_url := "http://host/cat.png" |}))
                                          [("seed", VInt 7)])))]);
                      ("raw_kwargs", VDict [("seed", VInt 7)])]].
Proof.
  intros E.
  generalize (basic_request_history E 0 Examples.chat_object "hello"
                (Some (ImgStr "http://host/cat.png")) [("seed", VInt 7)]
                (Examples.client (Some "chat")) eq_refl).
  assert (Hfirst : fst (basic_request E 0 "hello" (Some (ImgStr "http://host/cat.png"))
                          [("seed", VInt 7)] (Examples.client (Some "chat")))
                   = Ok Examples.three_choices) by (vm_compute; reflexivity).
  destruct (basic_request E 0 "hello" (Some (ImgStr "http://host/cat.png"))
              [("seed", VInt 7)] (Examples.client (Some "chat"))) as [[response|e] w'];
    [|discriminate].
  intros (_ & img & field & (resolved & again & Hr & Ha & -> & ->) & Hhist & _).
  injection Hr as <-. injection Ha as <-.
  exists response, w'. split; [reflexivity|]. exact Hhist.
Defined.

(** The ["kwargs"] entry of the record is the argument of [chat_request],
    not the merged keyword arguments. *)
Lemma history_keeps_serialized_request :
  let E := Demo.env true (Demo.answers Examples.three_choices 1) in
  let merged := build_kwargs Examples.chat_object (VStr "hello") [("seed", VInt 7)] in
  let r := basic_request E 0 "hello" None [("seed", VInt 7)] (Examples.client (Some "chat")) in
  fst r = Ok Examples.three_choices
  /\ exists record,
       (history <$> heap (snd r) !! 0%nat) = Some [record]
       /\ Py.getitem record "kwargs"
          = Ok (VDict [("stringify_request", VStr (stringify E merged))])
       /\ Py.getitem record "kwargs" <> Ok (VDict merged)
       /\ Py.getitem record "raw_kwargs" = Ok (VDict [("seed", VInt 7)]).
Proof.
  intros E merged r. split; [vm_compute; reflexivity|].
  eexists. split; [vm_compute; reflexivity|].
  split; [vm_compute; reflexivity|]. split; [|vm_compute; reflexivity].
  vm_compute. discriminate.
Qed.

(** A call with an image: the record keeps the reference of the image, and
    the message content has the text part and the image part. *)
Example basic_request_with_image :
  let E := Demo.env true (Demo.answers Examples.three_choices 1) in
  let r := basic_request E 0 "hello" (Some (ImgStr "http://host/cat.png")) []
             (Examples.client (Some "chat")) in
  fst r = Ok Examples.three_choices
  /\ ((fun o => (fun h => Py.getitem h "image") <$> history o) <$> heap (snd r) !! 0%nat)
     = Some [Ok (VStr "http://host/cat.png")]
  /\ net_calls (snd r)
     = [stringify E
          (Dict.set "messages"
             (VList [VDict [("role", VStr "user");
                            ("content",
                             VList [VDict [("type", VStr "text"); ("text", VStr "hello")];
                                    VDict [("type", VStr "image_url");
                                           ("image_url",
                                            VDict [("url", VStr "http://host/cat.png")])]])]])
             (kwargs Examples.chat_object))].
Proof. vm_compute. repeat split. Qed.

(** ** The retrying invoker *)

(** One run of the body of [request] has the footprint of an attempt. *)
Lemma attempt_footprint_refl (E : Env) (w : world) : attempt_footprint E w w.
Proof. split; [reflexivity|]. split; [lia|]. auto. Qed.

Lemma request_body_effects (E : Env) (self : nat) (prompt : string)
    (image : option image_arg) (kwargs : dict) (w : world) :
  attempt_footprint E w (snd (request_body E self prompt image kwargs w)).
Proof.
  unfold request_body, basic_request.
  generalize (if Dict.mem "model_type" kwargs then Dict.del "model_type" kwargs else kwargs).
  intros kw. unfold attr. unfold bind at 1.
  destruct (heap w !! self) as [o|]; [|apply attempt_footprint_refl]. cbn [id].
  assert (Hchat : forall key (rest : value -> M value),
            (forall r w0, usage_log (snd (rest r w0)) = usage_log w0
                          /\ net_calls (snd (rest r w0)) = net_calls w0
                          /\ (forall k v, cached (snd (rest r w0)) k v -> cached w0 k v)) ->
            attempt_footprint E w (snd (bind (chat_request E key) rest w))).
  { intros key rest Hrest. unfold bind, attempt_footprint.
    pose proof (chat_request_frame E key w) as [_ Hlog].
    pose proof (chat_request_net_calls E key w) as Hnet.
    pose proof (chat_request_cached E key w) as Hcache.
    destruct (chat_request E key w) as [[r|e] w0]; cbn [snd] in *.
    - destruct (Hrest r w0) as (Hl & Hn & Hc). rewrite Hl, Hn, Hlog.
      split; [reflexivity|]. split.
      + destruct Hnet as [->| ->]; rewrite ?length_app; cbn; lia.
      + intros k v Hk. apply Hc, Hcache in Hk as [Hk|[-> Hk]]; auto.
    - split; [exact Hlog|]. split.
      + destruct Hnet as [->| ->]; rewrite ?length_app; cbn; lia.
      + intros k v Hk. apply Hcache in Hk as [Hk|[-> Hk]]; auto. }
  destruct image as [i|].
  - unfold bind at 1. unfold bind at 1. unfold lift at 1.
    destruct (init_from E i) as [resolved|e]; [|apply attempt_footprint_refl]. cbn [ret].
    apply Hchat. intros r w0. unfold bind at 1. unfold bind at 1. unfold lift at 1.
    destruct (init_from E (ImgObj resolved)); cbn; auto.
  - unfold bind at 1. cbn [ret]. apply Hchat. intros r w0. cbn. auto.
Qed.

(** An attempt that succeeds ends the retry loop. *)
Lemma request_first_attempt (E : Env) (self : nat) (prompt : string)
    (image : option image_arg) (kwargs : dict) (fuel : nat) (w : world) (r : value) :
  fst (request_body E self prompt image kwargs w) = Ok r ->
  request E self prompt image kwargs (S fuel) w
  = Some (Ok r, snd (request_body E self prompt image kwargs w)).
Proof.
  intros H. unfold request, on_exception. cbn [retry].
  destruct (request_body E self prompt image kwargs w) as [[r'|e] w1]; cbn in H |- *;
    congruence.
Qed.



(** A success after rate-limit errors: the remote end refuses the first two
    requests and answers the third; [request] returns that answer after two
    logged retries. *)
Example retry_then_success :
  let answer := fun (n : nat) (_ : string) =>
                  if Nat.ltb n 2 then (Raise RateLimitError, 1%Q)
                  else (Ok Examples.three_choices, 1%Q) in
  let r := request (Demo.env true answer) 0 "hello" None [] 5 (Examples.client (Some "chat")) in
  fst <$> r = Some (Ok Examples.three_choices)
  /\ (length ∘ net_calls ∘ snd) <$> r = Some 3%nat
  /\ (length ∘ usage_log ∘ snd) <$> r = Some 2%nat.
Proof. vm_compute. repeat split. Qed.

(** An attempt whose request is in no store and whose network call fails
    raises the error of the call; only the clock and the list of network
    calls have changed. *)
Lemma attempt_fails (E : Env) (self : nat) (o : GPT4Vision) (prompt : string)
    (image : option image_arg) (img : option Image) (kwargs : dict) (w : world)
    (e : exn) (d : Q) :
  heap w !! self = Some o ->
  resolves E image img ->
  uncached (request_key E o prompt img kwargs) w ->
  create E (length (net_calls w)) (request_key E o prompt img kwargs) = (Raise e, d) ->
  request_body E self prompt image kwargs w
  = (Raise e, after_network_call (request_key E o prompt img kwargs) d w).
Proof.
  intros Ho Himg (Hl & Hn & Hd) Hc. unfold request_key in *.
  unfold request_body, basic_request, attr.
  generalize dependent
    (if Dict.mem "model_type" kwargs then Dict.del "model_type" kwargs else kwargs).
  intros kw Hl Hn Hd Hc.
  unfold bind at 1. rewrite Ho. cbn [id].
  assert (Hchat : forall key,
            lru w !! key = None -> notebook_store w !! key = None ->
            disk_store w !! key = None ->
            create E (length (net_calls w)) key = (Raise e, d) ->
            chat_request E key w = (Raise e, after_network_call key d w)).
  { clear. intros key Hl Hn Hd Hc. unfold_chat_request.
    destruct (cache_turn_on E), (notebook_memory_on E), (cache_memory_on E);
      rewrite ?Hl; cbn; rewrite ?Hn; cbn; rewrite ?Hd; cbn; rewrite Hc; reflexivity. }
  specialize (Hchat _ Hl Hn Hd Hc).
  destruct image as [i|]; cbn in Himg.
  - destruct Himg as (resolved & Hi & ->).
    unfold bind at 1. unfold bind at 1. unfold lift at 1. rewrite Hi. cbn [ret].
    unfold bind at 1. rewrite Hchat. reflexivity.
  - subst img. unfold bind at 1. cbn [ret]. unfold bind at 1. rewrite Hchat. reflexivity.
Qed.

Lemma inject_nat_succ (n : nat) :
  (inject_Z (Z.of_nat (S n)) == inject_Z (Z.of_nat n) + 1)%Q.
Proof. rewrite Nat2Z.inj_succ. unfold Z.succ. rewrite inject_Z_plus. reflexivity. Qed.

Lemma Qmin_bounds (a b : Q) : (0 <= a -> 0 <= b -> 0 <= Qmin a b /\ Qmin a b <= b)%Q.
Proof.
  intros Ha Hb. unfold Qmin. destruct (Qle_bool a b) eqn:Hab.
  - apply Qle_bool_iff in Hab. split; assumption.
  - split; [assumption|apply Qle_refl].
Qed.

Lemma expo_nonneg (n : nat) : (0 <= expo n)%Q.
Proof.
  unfold expo. change 0%Q with (inject_Z 0). rewrite <- Zle_Qle.
  apply Z.pow_nonneg. lia.
Qed.

Section AlwaysRateLimited.
Variable E : Env.
Variables (self : nat) (o : GPT4Vision) (prompt : string).
Variables (image : option image_arg) (img : option Image) (kwargs : dict).
Variables delta D : Q.

Hypothesis image_resolves : resolves E image img.
Hypothesis delta_pos : (0 < delta)%Q.
Hypothesis always_rate_limited :
  forall n, fst (create E n (request_key E o prompt img kwargs)) = Raise RateLimitError
            /\ (delta <= snd (create E n (request_key E o prompt img kwargs)) <= D)%Q.
Hypothesis jitter_nonneg : forall n v, (0 <= v -> 0 <= jitter E n v)%Q.

(** The loop of the decorator, entered at any iteration with enough fuel
    for the time that is left. *)
Lemma retry_exhausts (fuel tries : nat) (start : Q) (w : world) :
  heap w !! self = Some o ->
  uncached (request_key E o prompt img kwargs) w ->
  (start <= clock w)%Q ->
  (clock w - start <= 10 + D)%Q ->
  (10 - (clock w - start) + delta <= inject_Z (Z.of_nat fuel) * delta)%Q ->
  (1 <= fuel)%nat ->
  exists w',
    retry (jitter E) expo ERRORS 10 (backoff_hdlr kwargs)
      (request_body E self prompt image kwargs) fuel tries start w
    = Some (Raise RateLimitError, w')
    /\ (length (net_calls w) < length (net_calls w'))%nat
    /\ (10 + delta <= clock w' - start <= 10 + 2 * D)%Q
    /\ heap w' = heap w /\ lru w' = lru w
    /\ notebook_store w' = notebook_store w /\ disk_store w' = disk_store w.
Proof.
  revert tries w.
  induction fuel as [|fuel IH]; intros tries w Ho Hun Hstart Hel Hfuel Hone; [lia|].
  destruct (always_rate_limited (length (net_calls w))) as [Hfail Hdur].
  destruct (create E (length (net_calls w)) (request_key E o prompt img kwargs))
    as [r d] eqn:Hc. cbn [fst snd] in Hfail, Hdur. subst r.
  cbn [retry].
  rewrite (attempt_fails E self o prompt image img kwargs w RateLimitError d
             Ho image_resolves Hun Hc).
  cbn [ERRORS].
  destruct (Qle_bool 10 (clock w - start)) eqn:Hb.
  - apply Qle_bool_iff in Hb. eexists. split; [reflexivity|].
    cbn. rewrite length_app. cbn. repeat split; try lia; lra.
  - assert (Hlt : (clock w - start < 10)%Q).
    { apply Qnot_le_lt. intros Hle. apply Qle_bool_iff in Hle. congruence. }
    set (seconds := Qmin (jitter E (S tries) (expo (pred (S tries))))
                      (10 - (clock w - start))).
    destruct (Qmin_bounds (jitter E (S tries) (expo (pred (S tries))))
                (10 - (clock w - start))) as [Hs0 Hs1];
      [apply jitter_nonneg, expo_nonneg|lra|]. fold seconds in Hs0, Hs1.
    rewrite inject_nat_succ in Hfuel.
    destruct (IH (S tries)
                (set_clock (fun t => t + seconds)%Q
                   (backoff_hdlr kwargs seconds (S tries)
                      (after_network_call (request_key E o prompt img kwargs) d w))))
      as (w' & Hrun & Hnet & Htime & Hheap & Hl & Hn & Hd).
    + exact Ho.
    + exact Hun.
    + cbn. lra.
    + cbn. lra.
    + cbn. lra.
    + destruct fuel; [|lia]. change (inject_Z (Z.of_nat 0)) with 0%Q in Hfuel. lra.
    + exists w'. split; [exact Hrun|]. cbn in Hnet, Hheap, Hl, Hn, Hd.
      rewrite length_app in Hnet. cbn in Hnet.
      repeat split; try assumption; try lia; lra.
Qed.
End AlwaysRateLimited.

(** C3 (as the code has it).  Let every network call for the request fail
    with a rate-limit error after at least [delta > 0] and at most [D] time
    units, the request being in no store.  Then, given enough fuel, [request]
    raises [RateLimitError] after at least one network call.  The budget of
    10 is compared with the time elapsed when an attempt begins, and a wait
    never ends later than 10 after the first attempt began: so the error is
    raised by the first attempt to begin 10 or more time units after the
    first one began, and the time elapsed by then lies between [10 + delta]
    and [10 + 2 * D].  Histories and stores are as they were. *)
Theorem retry_budget (E : Env) (self : nat) (o : GPT4Vision) (prompt : string)
    (image : option image_arg) (img : option Image) (kwargs : dict) (delta D : Q)
    (fuel : nat) (w : world) :
  heap w !! self = Some o ->
  resolves E image img ->
  uncached (request_key E o prompt img kwargs) w ->
  (0 < delta)%Q ->
  (forall n, fst (create E n (request_key E o prompt img kwargs)) = Raise RateLimitError
             /\ (delta <= snd (create E n (request_key E o prompt img kwargs)) <= D)%Q) ->
  (forall n v, (0 <= v -> 0 <= jitter E n v)%Q) ->
  (10 + delta <= inject_Z (Z.of_nat fuel) * delta)%Q ->
  exists w',
    request E self prompt image kwargs fuel w = Some (Raise RateLimitError, w')
    /\ (length (net_calls w) < length (net_calls w'))%nat
    /\ (10 + delta <= clock w' - clock w <= 10 + 2 * D)%Q
    /\ heap w' = heap w /\ lru w' = lru w
    /\ notebook_store w' = notebook_store w /\ disk_store w' = disk_store w.
Proof.
  intros Ho Himg Hun Hdelta Hfail Hjit Hfuel.
  unfold request, on_exception.
  destruct (Hfail 0%nat) as [_ [Hd1 Hd2]].
  apply (retry_exhausts E self o prompt image img kwargs delta D Himg Hdelta Hfail Hjit);
    try assumption; try lra.
  destruct fuel; [|lia]. change (inject_Z (Z.of_nat 0)) with 0%Q in Hfuel. lra.
Qed.

Lemma retry_budget_witness :
  exists w',
    request (Demo.env true (Demo.fails RateLimitError 1)) 0 "hello" None [] 11
      (Examples.client (Some "chat")) = Some (Raise RateLimitError, w')
    /\ (length (net_calls (Examples.client (Some "chat"))) < length (net_calls w'))%nat
    /\ (10 + 1 <= clock w' - clock (Examples.client (Some "chat")) <= 10 + 2 * 1)%Q
    /\ heap w' = heap (Examples.client (Some "chat"))
    /\ lru w' = lru (Examples.client (Some "chat"))
    /\ notebook_store w' = notebook_store (Examples.client (Some "chat"))
    /\ disk_store w' = disk_store (Examples.client (Some "chat")).
Proof.
  apply (retry_budget (Demo.env true (Demo.fails RateLimitError 1)) 0 Examples.chat_object
           "hello" None None [] 1 1 11 (Examples.client (Some "chat"))).
  - reflexivity.
  - reflexivity.
  - repeat split; exact (lookup_empty _).
  - reflexivity.
  - intros n. cbn. split; [reflexivity|]. split; apply Qle_refl.
  - intros n v Hv. exact Hv.
  - vm_compute. discriminate.
Defined.

(** C3, refuted as stated.  Every attempt is refused after 11 time units.
    The first attempt ends at time 11 and was begun within the budget, so
    [request] waits and tries again; the error reaches the caller at time 23,
    after two network calls. *)
Lemma slow_attempts_exceed_budget :
  exists w',
    request (Demo.env true (Demo.fails RateLimitError 11)) 0 "hello" None [] 5
      (Examples.client (Some "chat")) = Some (Raise RateLimitError, w')
    /\ length (net_calls w') = 2%nat
    /\ clock (Examples.client (Some "chat")) = 0%Q
    /\ clock w' = 23%Q
    /\ ~ (clock w' - clock (Examples.client (Some "chat")) <= 10)%Q.
Proof.
  eexists. split; [vm_compute; reflexivity|].
  vm_compute. repeat split. intros H. apply H. reflexivity.
Qed.

(** ** The public call *)

(** The two assertions at the head of [__call__]. *)
Lemma call_asserts_only_completed (E : Env) (self : nat) (prompt : string)
    (image : option image_arg) (return_sorted : bool) (kwargs : dict) (fuel : nat)
    (w : world) :
  __call__ E self prompt image false return_sorted kwargs fuel w
  = Some (Raise (AssertionError "for now"), w).
Proof. reflexivity. Qed.

Lemma call_asserts_unsorted (E : Env) (self : nat) (prompt : string)
    (image : option image_arg) (only_completed : bool) (kwargs : dict) (fuel : nat)
    (w : world) :
  __call__ E self prompt image only_completed true kwargs fuel w
  = Some (Raise (AssertionError "for now"), w).
Proof. unfold __call__. destruct only_completed; reflexivity. Qed.

(** C10.  A call with [only_completed] false or with [return_sorted] true
    raises [AssertionError] and leaves the whole state as it was: no request
    is formatted, no cache tier is read or written, no network call is made
    and no history grows.  The result does not depend on the fuel: the retry
    loop is not entered. *)
Theorem call_guard (E : Env) (self : nat) (prompt : string) (image : option image_arg)
    (only_completed return_sorted : bool) (kwargs : dict) (fuel : nat) (w : world) :
  only_completed = false \/ return_sorted = true ->
  __call__ E self prompt image only_completed return_sorted kwargs fuel w
  = Some (Raise (AssertionError "for now"), w).
Proof.
  intros [-> | ->]; [apply call_asserts_only_completed|apply call_asserts_unsorted].
Qed.

Lemma call_guard_witness :
  __call__ (Demo.env true (Demo.answers Examples.three_choices 1)) 0 "hello" None
    false true [("n", VInt 2)] 0 (Examples.client None)
  = Some (Raise (AssertionError "for now"), Examples.client None).
Proof. apply call_guard. left. reflexivity. Defined.

(** C5.  The two examples on the object that [GPT4Vision()] builds.  The
    filter keeps the two completed choices of the first response and, by the
    fallback, both choices of the second; the text extraction then reads
    [choice["text"]], which a chat choice does not have, and the call raises
    [KeyError] where an object of type ["chat"] returns the texts. *)
Theorem only_completed_default_client :
  let E3 := Demo.env true (Demo.answers Examples.three_choices 1) in
  let E2 := Demo.env true (Demo.answers Examples.two_truncated 1) in
  rfilter completed
    [Demo.chat_choice "length" "a"; Demo.chat_choice "stop" "b"; Demo.chat_choice "stop" "c"]
  = Ok [Demo.chat_choice "stop" "b"; Demo.chat_choice "stop" "c"]
  /\ rfilter completed [Demo.chat_choice "length" "a"; Demo.chat_choice "length" "b"] = Ok []
  /\ fst <$> __call__ E3 0 "hello" None true false [] 1 (Examples.client None)
     = Some (Raise (KeyError "text"))
  /\ fst <$> __call__ E2 0 "hello" None true false [] 1 (Examples.client None)
     = Some (Raise (KeyError "text"))
  /\ fst <$> __call__ E3 0 "hello" None true false [] 1 (Examples.client (Some "chat"))
     = Some (Ok [VStr "b"; VStr "c"])
  /\ fst <$> __call__ E2 0 "hello" None true false [] 1 (Examples.client (Some "chat"))
     = Some (Ok [VStr "a"; VStr "b"]).
Proof. vm_compute. repeat split. Qed.

Lemma rfilter_completed_inv (cs done : list value) :
  rfilter completed cs = Ok done -> done = List.filter not_length cs.
Proof.
  revert done. induction cs as [|x l IH]; intros done H; cbn [rfilter] in H.
  - injection H as <-. reflexivity.
  - cbn [List.filter].
    change (not_length x) with (match completed x with Ok b => b | Raise _ => false end).
    destruct (completed x) as [b|]; [|discriminate]. cbn [rbind] in H.
    destruct (rfilter completed l) as [ys|]; [|discriminate]. cbn [rbind] in H.
    injection H as <-. rewrite (IH ys eq_refl). reflexivity.
Qed.

(** Inverting a call that returns. *)
Lemma call_returns_inv (E : Env) (self : nat) (prompt : string) (image : option image_arg)
    (only_completed return_sorted : bool) (kwargs : dict) (fuel : nat) (w w' : world)
    (texts : list value) :
  __call__ E self prompt image only_completed return_sorted kwargs fuel w
  = Some (Ok texts, w') ->
  only_completed = true /\ return_sorted = false /\
  exists response w1 mt,
    request E self prompt image kwargs fuel w = Some (Ok response, w1) /\
    (if log_openai_usage E then log_usage response else ret tt) w1 = (Ok tt, w') /\
    model_type <$> heap w' !! self = Some mt /\
    completions_of mt true false kwargs response = Ok texts.
Proof.
  unfold __call__. intros H.
  destruct only_completed; [|discriminate]. destruct return_sorted; [discriminate|].
  cbn [negb] in H. split; [reflexivity|]. split; [reflexivity|].
  destruct (request E self prompt image kwargs fuel w) as [[[response|e] w1]|];
    [|discriminate..].
  exists response, w1. unfold bind at 1 in H.
  destruct ((if log_openai_usage E then log_usage response else ret tt) w1)
    as [[[]|e] w2] eqn:Hlog; [|discriminate].
  unfold bind, attr, lift in H.
  destruct (heap w2 !! self) as [o|] eqn:Ho; [|discriminate].
  injection H as H <-. exists (model_type o). rewrite Ho. auto.
Qed.

(** C6 (as the code has it).  A call that returns was made with
    [return_sorted] false, and its texts are those of the kept choices in the
    order in which the response lists them, whatever [n] is: no score is
    computed and nothing is reordered. *)
Theorem call_keeps_response_order (E : Env) (self : nat) (prompt : string)
    (image : option image_arg) (only_completed return_sorted : bool) (kwargs : dict)
    (fuel : nat) (w w' : world) (texts : list value) :
  __call__ E self prompt image only_completed return_sorted kwargs fuel w
  = Some (Ok texts, w') ->
  return_sorted = false /\
  exists response w1 mt choices,
    request E self prompt image kwargs fuel w = Some (Ok response, w1) /\
    model_type <$> heap w' !! self = Some mt /\
    (let+ c := Py.getitem response "choices" in Py.iter c) = Ok choices /\
    rmap (_get_choice_text mt) (kept choices) = Ok texts.
Proof.
  intros H. apply call_returns_inv in H as (_ & -> & response & w1 & mt & Hreq & _ & Hmt & Hc).
  split; [reflexivity|]. exists response, w1, mt.
  unfold completions_of in Hc.
  destruct (Py.getitem response "choices") as [c|]; [|discriminate]. cbn [rbind] in Hc |- *.
  destruct (Py.iter c) as [choices|]; [|discriminate]. cbn [rbind] in Hc.
  exists choices. repeat split; [exact Hreq|exact Hmt|].
  destruct (rfilter completed choices) as [done|] eqn:Hdone; [|discriminate].
  cbn [rbind andb] in Hc.
  apply rfilter_completed_inv in Hdone as ->.
  rewrite existsb_filter_length in Hc. fold (kept choices) in Hc.
  destruct (rmap (_get_choice_text mt) (kept choices)); [|discriminate].
  cbn in Hc. exact Hc.
Qed.

Lemma call_keeps_response_order_witness :
  exists response w1 mt choices,
    request (Demo.env true (Demo.answers Examples.three_choices 1)) 0 "hello" None
      [("n", VInt 2)] 1 (Examples.client (Some "chat")) = Some (Ok response, w1) /\
    model_type <$> heap (snd (request_body (Demo.env true (Demo.answers Examples.three_choices 1))
                           0 "hello" None [("n", VInt 2)] (Examples.client (Some "chat")))) !! 0
      = Some mt /\
    (let+ c := Py.getitem response "choices" in Py.iter c) = Ok choices /\
    rmap (_get_choice_text mt) (kept choices) = Ok [VStr "b"; VStr "c"].
Proof.
  set (E := Demo.env true (Demo.answers Examples.three_choices 1)).
  set (w := Examples.client (Some "chat")).
  assert (Hreq : fst (request_body E 0 "hello" None [("n", VInt 2)] w)
                 = Ok Examples.three_choices) by (vm_compute; reflexivity).
  apply (request_first_attempt E 0 "hello" None [("n", VInt 2)] 0 w) in Hreq.
  assert (Hmt : model_type <$> heap (snd (request_body E 0 "hello" None [("n", VInt 2)] w)) !! 0
                = Some "chat") by (vm_compute; reflexivity).
  refine (proj2 (call_keeps_response_order E 0 "hello" None true false [("n", VInt 2)] 1 w
                   (snd (request_body E 0 "hello" None [("n", VInt 2)] w))
                   [VStr "b"; VStr "c"] _)).
  unfold __call__. cbn [negb]. rewrite Hreq. unfold bind, attr, lift. cbn [log_openai_usage E Demo.env ret].
  destruct (heap (snd (request_body E 0 "hello" None [("n", VInt 2)] w)) !! 0) as [o|];
    [|discriminate].
  injection Hmt as ->. reflexivity.
Defined.

(** C6, refuted as stated.  With [return_sorted] true and [n = 2], on the
    log-probabilities of the specification's example, the call does not
    return the texts by descending mean: it raises at the guard of line 181
    and the state stays as it was. *)
Lemma sorted_call_is_rejected :
  let E := Demo.env true (Demo.answers (Demo.chat_response [Examples.low; Examples.high]) 1) in
  let w := Examples.client (Some "text") in
  __call__ E 0 "hello" None true true [("n", VInt 2)] 5 w
  = Some (Raise (AssertionError "for now"), w)
  /\ (forall w', __call__ E 0 "hello" None true true [("n", VInt 2)] 5 w
                 <> Some (Ok [VStr "high"; VStr "low"], w')).
Proof.
  cbv zeta. rewrite call_asserts_unsorted.
  split; [reflexivity|]. intros w'. discriminate.
Qed.

(** The scoring code behind the guard, run on its own on that example,
    would put the choice with mean -0.1 first. *)
Example sorted_completions_example :
  sorted_completions "text" [Examples.low; Examples.high] = Ok [VStr "high"; VStr "low"]
  /\ avglog Examples.low = Ok (-1.0)%float
  /\ (let+ a := avglog Examples.high in Ok (PrimFloat.ltb (-1.0) a)) = Ok true.
Proof. vm_compute. repeat split. Qed.

(** C7, refuted as stated.  With sorting requested and [n = 2], a response
    with an empty log-probability sequence makes the call fail at the guard
    with [AssertionError], as every response does, and before any request;
    and the scoring code itself, run on such a choice, divides by zero (or,
    on absent log-probabilities, subscripts [None]). *)
Lemma bad_logprobs_are_not_checked :
  let E := Demo.env true
             (Demo.answers (Demo.chat_response [Examples.empty_logprobs; Examples.high]) 1) in
  let w := Examples.client (Some "text") in
  __call__ E 0 "hello" None true true [("n", VInt 2)] 5 w
  = Some (Raise (AssertionError "for now"), w)
  /\ sorted_completions "text" [Examples.empty_logprobs; Examples.high]
     = Raise ZeroDivisionError
  /\ sorted_completions "text" [Examples.no_logprobs; Examples.high] = Raise TypeError.
Proof.
  cbv zeta. rewrite call_asserts_unsorted.
  split; [reflexivity|]. split; vm_compute; reflexivity.
Qed.

(** C7 (as the code has it).  A call that asks for sorting fails with
    [AssertionError] whatever the response would have been.  The scoring
    code has no check of its own: a choice whose ["logprobs"] is [None]
    makes it raise [TypeError], and a choice with an empty list of
    log-probabilities makes it raise [ZeroDivisionError]. *)
Theorem sorting_without_logprobs :
  (forall E self prompt image only_completed kwargs fuel w,
     __call__ E self prompt image only_completed true kwargs fuel w
     = Some (Raise (AssertionError "for now"), w))
  /\ (forall mt c rest,
        Py.getitem c "logprobs" = Ok VNone ->
        sorted_completions mt (c :: rest) = Raise TypeError)
  /\ (forall mt c rest lp ts,
        Py.getitem c "logprobs" = Ok lp ->
        Py.getitem lp "tokens" = Ok (VList ts) ->
        Py.getitem lp "token_logprobs" = Ok (VList []) ->
        sorted_completions mt (c :: rest) = Raise ZeroDivisionError).
Proof.
  split; [|split].
  - intros. apply call_asserts_unsorted.
  - intros mt c rest Hlp. unfold sorted_completions, avglog. cbn [rmap].
    rewrite Hlp. reflexivity.
  - intros mt c rest lp ts Hlp Hts Hls. unfold sorted_completions, avglog. cbn [rmap].
    rewrite Hlp. cbn [rbind]. rewrite Hts, Hls. cbn [rbind Py.index_after].
    destruct (S <$> Py.list_index "<|endoftext|>" ts) as [i|]; cbn [rbind Py.slice_to];
      [rewrite firstn_nil|]; reflexivity.
Qed.

Lemma sorting_without_logprobs_witness :
  sorted_completions "text" [Examples.no_logprobs; Examples.high] = Raise TypeError
  /\ sorted_completions "text" [Examples.empty_logprobs; Examples.high]
     = Raise ZeroDivisionError.
Proof.
  split.
  - apply (proj1 (proj2 sorting_without_logprobs)). reflexivity.
  - apply (proj2 (proj2 sorting_without_logprobs) "text" Examples.empty_logprobs
             [Examples.high]
             (VDict [("tokens", VList []); ("token_logprobs", VList [])]) []);
      reflexivity.
Defined.

(** C9.  The object built with the default [model_type] is of type
    ["vision"], so the normalizer reads [choice["text"]]; the call path has
    sent a chat request, whose choices nest the text under ["message"].  The
    request is made, and the call then raises [KeyError]. *)
Theorem default_model_type_misses_chat_text :
  let E := Demo.env true (Demo.answers Examples.three_choices 1) in
  let w := Examples.client None in
  model_type <$> heap w !! 0 = Some "vision"
  /\ _get_choice_text "vision" (Demo.chat_choice "stop" "b") = Raise (KeyError "text")
  /\ _get_choice_text "chat" (Demo.chat_choice "stop" "b") = Ok (VStr "b")
  /\ fst <$> __call__ E 0 "hello" None true false [] 1 w = Some (Raise (KeyError "text"))
  /\ (net_calls ∘ snd) <$> __call__ E 0 "hello" None true false [] 1 w
     = Some ["{" +:+ Json.quote "temperature" +:+ ": 0.0, " +:+ Json.quote "max_tokens"
             +:+ ": 150, " +:+ Json.quote "top_p" +:+ ": 1, "
             +:+ Json.quote "frequency_penalty" +:+ ": 0, "
             +:+ Json.quote "presence_penalty" +:+ ": 0, " +:+ Json.quote "n" +:+ ": 1, "
             +:+ Json.quote "model" +:+ ": " +:+ Json.quote "gpt-4-vision-preview" +:+ ", "
             +:+ Json.quote "messages" +:+ ": [{" +:+ Json.quote "role" +:+ ": "
             +:+ Json.quote "user" +:+ ", " +:+ Json.quote "content" +:+ ": "
             +:+ Json.quote "hello" +:+ "}]}"].
Proof. vm_compute. repeat split. Qed.

(** * Further properties of the module *)

(** ** The cache layers *)

Ltac case_chat_request E key :=
  unfold_chat_request;
  destruct (cache_turn_on E), (notebook_memory_on E), (cache_memory_on E);
  repeat (match goal with
          | |- context [match ?m !! key with _ => _ end] =>
              let H := fresh "Hm" in destruct (m !! key) eqn:H
          | |- context [create E ?n key] =>
              let H := fresh "Hc" in destruct (create E n key) as [[?|?] ?] eqn:H
          end; cbn).

(** X1.  Where a cached request gets its outcome from: a response it
    returns was bound to the key in some store before the call, or is the
    successful answer of the network call of this request; an exception it
    raises is the exception of that network call, and then nothing was
    stored: the state differs from the state before only by the call made. *)
Theorem chat_request_outcome (E : Env) (key : string) (w : world) :
  match chat_request E key w with
  | (Ok r, _) =>
      cached w key r \/ fst (create E (length (net_calls w)) key) = Ok r
  | (Raise e, w1) =>
      exists d, create E (length (net_calls w)) key = (Raise e, d)
                /\ w1 = after_network_call key d w
  end.
Proof.
  unfold cached, after_network_call.
  case_chat_request E key; eauto 6.
Qed.

(** The stores only grow: a binding is never removed nor changed. *)
Lemma chat_request_stores_grow (E : Env) (key : string) (w : world) (k : string) (v : value) :
  (lru w !! k = Some v -> lru (snd (chat_request E key w)) !! k = Some v)
  /\ (notebook_store w !! k = Some v ->
      notebook_store (snd (chat_request E key w)) !! k = Some v)
  /\ (disk_store w !! k = Some v -> disk_store (snd (chat_request E key w)) !! k = Some v).
Proof.
  case_chat_request E key; repeat split; auto;
    intros Hk; destruct (decide (k = key)) as [->|Hne];
    rewrite ?lookup_insert_ne by congruence; congruence.
Qed.

Lemma run_requests_stores_grow (E : Env) (keys : list string) (w : world)
    (k : string) (v : value) :
  (lru w !! k = Some v -> lru (run_requests E keys w) !! k = Some v)
  /\ (notebook_store w !! k = Some v -> notebook_store (run_requests E keys w) !! k = Some v)
  /\ (disk_store w !! k = Some v -> disk_store (run_requests E keys w) !! k = Some v).
Proof.
  unfold run_requests. revert w. induction keys as [|key keys IH]; intros w; [cbn; auto|].
  cbn [fold_left]. destruct (IH (snd (chat_request E key w))) as (H1 & H2 & H3).
  destruct (chat_request_stores_grow E key w k v) as (G1 & G2 & G3). auto.
Qed.

(** X2.  No eviction and no invalidation: once the memo binds a key to a
    response, a request for that key returns this response and changes
    nothing (no store is written, the network is not called), after any
    sequence of other cached requests, whatever their keys and outcomes. *)
Theorem memo_is_stable (E : Env) (key : string) (v : value) (keys : list string) (w : world) :
  cache_turn_on E = true ->
  lru w !! key = Some v ->
  chat_request E key (run_requests E keys w) = (Ok v, run_requests E keys w).
Proof.
  intros Hon Hhit.
  apply (run_requests_stores_grow E keys w key v) in Hhit.
  unfold_chat_request. rewrite Hon, Hhit. reflexivity.
Qed.

Lemma memo_is_stable_witness :
  let E := Demo.env true (Demo.answers Examples.three_choices 1) in
  let w := snd (chat_request E "{}" fresh_world) in
  chat_request E "{}" (run_requests E ["[1]"; "[2]"; "{}"] w)
  = (Ok Examples.three_choices, run_requests E ["[1]"; "[2]"; "{}"] w).
Proof.
  cbv zeta. apply memo_is_stable; [reflexivity|]. vm_compute. reflexivity.
Defined.

(** X3.  A memo miss that the persistent store answers: the stored
    response is returned and copied into the memo; the network is not
    called, no time passes and the persistent store is as it was. *)
Theorem persistent_hit_fills_memo (E : Env) (key : string) (v : value) (w : world) :
  cache_turn_on E = true ->
  cache_memory_on E = true ->
  lru w !! key = None ->
  notebook_store w !! key = None ->
  disk_store w !! key = Some v ->
  exists w1,
    chat_request E key w = (Ok v, w1)
    /\ lru w1 !! key = Some v
    /\ net_calls w1 = net_calls w /\ clock w1 = clock w
    /\ disk_store w1 = disk_store w /\ heap w1 = heap w.
Proof.
  intros Hon Hdisk Hl Hn Hd. unfold_chat_request. rewrite Hon, Hdisk.
  destruct (notebook_memory_on E); cbn; rewrite Hl, ?Hn; cbn; rewrite Hd; cbn;
    (eexists; split; [reflexivity|]); cbn; rewrite lookup_insert_eq; auto.
Qed.

Lemma persistent_hit_fills_memo_witness :
  exists w1,
    chat_request (Demo.env true (Demo.fails (APIError "offline") 1)) "{}"
      (set_disk_store (fun m => <["{}" := Examples.three_choices]> m) fresh_world)
    = (Ok Examples.three_choices, w1)
    /\ lru w1 !! "{}" = Some Examples.three_choices
    /\ net_calls w1 = [] /\ clock w1 = 0%Q
    /\ disk_store w1 = <["{}" := Examples.three_choices]> ∅ /\ heap w1 = [].
Proof.
  exact (persistent_hit_fills_memo (Demo.env true (Demo.fails (APIError "offline") 1)) "{}"
           Examples.three_choices
           (set_disk_store (fun m => <["{}" := Examples.three_choices]> m) fresh_world)
           eq_refl eq_refl (lookup_empty _) (lookup_empty _)
           (lookup_insert_eq _ _ _)).
Defined.

(** ** The constructor and the request formatter *)

Lemma dict_get_del (k' k : string) (d : dict) :
  NoDup (Dict.keys d) ->
  Dict.get k' (Dict.del k d) = if String.eqb k' k then None else Dict.get k' d.
Proof.
  induction d as [|[k0 v0] d IH]; intros Hnd.
  - cbn. destruct (String.eqb k' k); reflexivity.
  - change (Dict.keys ((k0, v0) :: d)) with (k0 :: Dict.keys d) in Hnd.
    inversion Hnd as [|? ? Hk0 Hnd']; subst. cbn [Dict.del Dict.get].
    destruct (String.eqb_spec k k0) as [->|Hne].
    + destruct (String.eqb_spec k' k0) as [->|Hne']; [|reflexivity].
      apply dict_get_None, Hk0.
    + cbn [Dict.get]. rewrite (IH Hnd').
      destruct (String.eqb_spec k' k0) as [->|Hne']; [|reflexivity].
      destruct (String.eqb_spec k0 k); congruence.
Qed.

Lemma dict_del_absent (k : string) (d : dict) : Dict.mem k d = false -> Dict.del k d = d.
Proof.
  unfold Dict.mem. induction d as [|[k0 v0] d IH]; [reflexivity|].
  cbn [existsb fst Dict.del]. destruct (String.eqb k k0); [discriminate|].
  cbn [orb]. intros H. rewrite (IH H). reflexivity.
Qed.

Lemma dict_get_mem (k : string) (d : dict) :
  Dict.mem k d = match Dict.get k d with Some _ => true | None => false end.
Proof.
  unfold Dict.mem. induction d as [|[k0 v0] d IH]; [reflexivity|].
  cbn [existsb fst Dict.get]. destruct (String.eqb k k0); [reflexivity|exact IH].
Qed.

(** X4.  The options of a new object: the constructor's keyword arguments
    override the six defaults, the other defaults stay, and the ["model"]
    option is always the [model] argument.  The model type is ["vision"]
    when none (or an empty one) is given. *)
Theorem init_options (model : string) (api_key : option string) (api_provider : string)
    (api_base mt sp : option string) (kw : dict) (w : world) :
  NoDup (Dict.keys kw) ->
  exists o,
    heap (snd (__init__ model api_key api_provider api_base mt sp kw w)) !! length (heap w)
    = Some o
    /\ Dict.get "model" (kwargs o) = Some (VStr model)
    /\ (forall k, k <> "model" ->
          Dict.get k (kwargs o)
          = match Dict.get k kw with
            | Some v => Some v
            | None =>
                Dict.get k [("temperature", VFloat 0.0); ("max_tokens", VInt 150);
                            ("top_p", VInt 1); ("frequency_penalty", VInt 0);
                            ("presence_penalty", VInt 0); ("n", VInt 1)]
            end)
    /\ model_type o = (if str_truthy mt then default "" mt else "vision")
    /\ system_prompt o = sp
    /\ history o = [].
Proof.
  intros Hkw. eexists. split; [cbn; apply list_lookup_middle; reflexivity|].
  cbn [kwargs model_type system_prompt history]. split; [|split; [|auto]].
  - rewrite dict_get_set. reflexivity.
  - intros k Hk. rewrite dict_get_set. apply String.eqb_neq in Hk. rewrite Hk.
    apply dict_get_merge, Hkw.
Qed.

Lemma init_options_witness :
  exists o,
    heap (snd (__init__ "gpt-4o" None "openai" None (Some "") None
                 [("n", VInt 3); ("seed", VInt 7)] fresh_world)) !! 0%nat
    = Some o
    /\ Dict.get "model" (kwargs o) = Some (VStr "gpt-4o")
    /\ (forall k, k <> "model" ->
          Dict.get k (kwargs o)
          = match Dict.get k [("n", VInt 3); ("seed", VInt 7)] with
            | Some v => Some v
            | None =>
                Dict.get k [("temperature", VFloat 0.0); ("max_tokens", VInt 150);
                            ("top_p", VInt 1); ("frequency_penalty", VInt 0);
                            ("presence_penalty", VInt 0); ("n", VInt 1)]
            end)
    /\ model_type o = "vision"
    /\ system_prompt o = None
    /\ history o = [].
Proof.
  apply (init_options "gpt-4o" None "openai" None (Some "") None
           [("n", VInt 3); ("seed", VInt 7)] fresh_world).
  apply (bool_decide_unpack _). vm_compute. exact I.
Defined.

(** X5.  Building an object disturbs nothing that exists: the objects
    already built keep their address and their attributes (so their
    histories), the new object gets the next address, and the caches, the
    log, the clock and the list of network calls are untouched.  A missing
    or empty [api_key] (or [api_base]) leaves the configured one in place. *)
Theorem init_frame (model : string) (api_key : option string) (api_provider : string)
    (api_base mt sp : option string) (kw : dict) (w : world) :
  let r := __init__ model api_key api_provider api_base mt sp kw w in
  fst r = Ok (length (heap w))
  /\ (forall j o, heap w !! j = Some o -> heap (snd r) !! j = Some o)
  /\ length (heap (snd r)) = S (length (heap w))
  /\ lru (snd r) = lru w /\ notebook_store (snd r) = notebook_store w
  /\ disk_store (snd r) = disk_store w /\ net_calls (snd r) = net_calls w
  /\ usage_log (snd r) = usage_log w /\ clock (snd r) = clock w
  /\ openai_api_type (snd r) = api_provider
  /\ openai_api_key (snd r) = (if str_truthy api_key then api_key else openai_api_key w)
  /\ openai_base_url (snd r) = (if str_truthy api_base then api_base else openai_base_url w).
Proof.
  cbn. repeat split.
  - intros j o Hj. apply lookup_app_l_Some. exact Hj.
  - rewrite length_app. cbn. lia.
Qed.

(** X6.  The request that is serialized: a call-level option wins over
    the default of the object with the same name, the other defaults are
    kept, and ["messages"] is always the message list the formatter builds,
    also when the caller passes a ["messages"] option. *)
Theorem build_kwargs_lookup (o : GPT4Vision) (content : value) (kw : dict) (k : string) :
  NoDup (Dict.keys kw) ->
  Dict.get k (build_kwargs o content kw)
  = if String.eqb k "messages" then
      Some (VList (if str_truthy (system_prompt o)
                   then [VDict [("role", VStr "system");
                                ("content", VStr (default "" (system_prompt o)))];
                         VDict [("role", VStr "user"); ("content", content)]]
                   else [VDict [("role", VStr "user"); ("content", content)]]))
    else match Dict.get k kw with
         | Some v => Some v
         | None => Dict.get k (kwargs o)
         end.
Proof.
  intros Hkw. unfold build_kwargs. rewrite dict_get_set.
  destruct (String.eqb k "messages").
  - destruct (str_truthy (system_prompt o)); reflexivity.
  - apply dict_get_merge, Hkw.
Qed.

Lemma build_kwargs_lookup_witness :
  Dict.get "temperature"
    (build_kwargs Examples.chat_object (VStr "hello")
       [("messages", VStr "mine"); ("temperature", VInt 1)])
  = Some (VInt 1)
  /\ Dict.get "messages"
       (build_kwargs Examples.chat_object (VStr "hello")
          [("messages", VStr "mine"); ("temperature", VInt 1)])
     = Some (VList [VDict [("role", VStr "user"); ("content", VStr "hello")]]).
Proof.
  assert (Hnd : NoDup (Dict.keys [("messages", VStr "mine"); ("temperature", VInt 1)]))
    by (apply (bool_decide_unpack _); vm_compute; exact I).
  split.
  - rewrite (build_kwargs_lookup Examples.chat_object (VStr "hello") _ "temperature" Hnd).
    reflexivity.
  - rewrite (build_kwargs_lookup Examples.chat_object (VStr "hello") _ "messages" Hnd).
    reflexivity.
Defined.

(** X7.  [request] never sends a ["model_type"] option: whatever the
    caller passes under that name is removed before the request is built,
    every other option is passed on as it is, and the serialized request
    has no ["model_type"] entry unless the object was built with one. *)
Theorem request_drops_model_type (E : Env) (self : nat) (o : GPT4Vision) (prompt : string)
    (image : option image_arg) (content : value) (kw : dict) (w : world) :
  NoDup (Dict.keys kw) ->
  request_body E self prompt image kw w
  = basic_request E self prompt image (without_model_type kw) w
  /\ Dict.get "model_type" (without_model_type kw) = None
  /\ (forall k, k <> "model_type" ->
        Dict.get k (without_model_type kw) = Dict.get k kw)
  /\ (Dict.get "model_type" (kwargs o) = None ->
      Dict.get "model_type" (build_kwargs o content (without_model_type kw)) = None).
Proof.
  intros Hnd.
  assert (Hget : forall k, Dict.get k (without_model_type kw)
                           = if String.eqb k "model_type" then None else Dict.get k kw).
  { intros k. unfold without_model_type.
    destruct (Dict.mem "model_type" kw) eqn:Hm; [apply dict_get_del, Hnd|].
    destruct (String.eqb_spec k "model_type") as [->|]; [|reflexivity].
    rewrite dict_get_mem in Hm. destruct (Dict.get "model_type" kw); congruence. }
  assert (Hnd' : NoDup (Dict.keys (without_model_type kw))).
  { unfold without_model_type. destruct (Dict.mem "model_type" kw); [|exact Hnd].
    clear Hget. induction kw as [|[k0 v0] kw IH]; [exact Hnd|].
    change (Dict.keys ((k0, v0) :: kw)) with (k0 :: Dict.keys kw) in Hnd.
    inversion Hnd as [|? ? Hk0 Hnd0]; subst. cbn [Dict.del].
    destruct (String.eqb_spec "model_type" k0) as [<-|Hne]; [exact Hnd0|].
    change (NoDup (k0 :: Dict.keys (Dict.del "model_type" kw))).
    constructor; [|apply IH, Hnd0].
    intros Hin. apply Hk0. apply list_elem_of_In, dict_mem_In.
    apply list_elem_of_In, dict_mem_In in Hin. rewrite dict_get_mem in Hin |- *.
    rewrite (dict_get_del k0 "model_type" kw Hnd0) in Hin.
    destruct (String.eqb k0 "model_type"); [discriminate|exact Hin]. }
  split; [reflexivity|]. split; [rewrite Hget; reflexivity|]. split.
  - intros k Hk. rewrite Hget. apply String.eqb_neq in Hk. rewrite Hk. reflexivity.
  - intros Ho. unfold build_kwargs. rewrite dict_get_set. cbn [String.eqb].
    rewrite (dict_get_merge _ _ _ Hnd'), Hget. cbn. exact Ho.
Qed.

Lemma request_drops_model_type_witness :
  Dict.get "model_type"
    (build_kwargs Examples.chat_object (VStr "hello")
       (without_model_type [("seed", VInt 7); ("model_type", VStr "text")])) = None
  /\ Dict.get "seed" (without_model_type [("seed", VInt 7); ("model_type", VStr "text")])
     = Some (VInt 7).
Proof.
  assert (Hnd : NoDup (Dict.keys [("seed", VInt 7); ("model_type", VStr "text")]))
    by (apply (bool_decide_unpack _); vm_compute; exact I).
  destruct (request_drops_model_type (Demo.env true (Demo.answers Examples.three_choices 1))
              0 Examples.chat_object "hello" None (VStr "hello") _
              (Examples.client (Some "chat")) Hnd) as (_ & _ & Hkeep & Hnone).
  split; [apply Hnone; reflexivity|].
  rewrite Hkeep by discriminate. reflexivity.
Defined.

(** ** Attempts and retries *)

Lemma image_reference_resolves (E : Env) (image : option image_arg) (img : option Image)
    (field : value) :
  image_reference E image img field -> resolves E image img.
Proof.
  destruct image as [i|]; cbn; [|tauto].
  intros (resolved & again & H1 & _ & H2 & _). eauto.
Qed.

(** A cached request for a key that no store holds, answered by the
    network. *)
Lemma chat_request_miss_ok (E : Env) (key : string) (w : world) (r : value) (d : Q) :
  uncached key w ->
  create E (length (net_calls w)) key = (Ok r, d) ->
  exists w1,
    chat_request E key w = (Ok r, w1)
    /\ net_calls w1 = net_calls w ++ [key] /\ clock w1 = (clock w + d)%Q
    /\ usage_log w1 = usage_log w /\ heap w1 = heap w.
Proof.
  intros (Hl & Hn & Hd) Hc. unfold_chat_request.
  destruct (cache_turn_on E), (notebook_memory_on E), (cache_memory_on E);
    rewrite ?Hl; cbn; rewrite ?Hn; cbn; rewrite ?Hd; cbn; rewrite Hc; cbn;
    (eexists; split; [reflexivity|]); cbn; auto.
Qed.

(** An attempt whose request is in no store and whose network call is
    answered: the response is returned and one record is appended to the
    history of the object. *)
Lemma attempt_succeeds (E : Env) (self : nat) (o : GPT4Vision) (prompt : string)
    (image : option image_arg) (img : option Image) (field : value) (kwargs : dict)
    (w : world) (r : value) (d : Q) :
  heap w !! self = Some o ->
  image_reference E image img field ->
  uncached (request_key E o prompt img kwargs) w ->
  create E (length (net_calls w)) (request_key E o prompt img kwargs) = (Ok r, d) ->
  exists w1,
    request_body E self prompt image kwargs w = (Ok r, w1)
    /\ net_calls w1 = net_calls w ++ [request_key E o prompt img kwargs]
    /\ clock w1 = (clock w + d)%Q
    /\ usage_log w1 = usage_log w
    /\ heap w1
       = alter (fun o' => with_history
                            (history o' ++
                             [history_record E o prompt img field r
                                (without_model_type kwargs)]) o')
           self (heap w).
Proof.
  intros Ho Himg Hun Hc.
  destruct (chat_request_miss_ok E _ w r d Hun Hc)
    as (w1 & Hchat & Hnet & Hclock & Hlog & Hheap).
  unfold request_key in *.
  unfold request_body, basic_request, attr, history_record.
  fold (without_model_type kwargs) in *.
  set (kw := without_model_type kwargs) in *. clearbody kw.
  unfold bind at 1. rewrite Ho. cbn [id].
  destruct image as [i|]; cbn in Himg.
  - destruct Himg as (resolved & again & Hi & Hi2 & Himg & Hfield). subst img field.
    unfold bind at 1. unfold bind at 1. unfold lift at 1. rewrite Hi. cbn [ret].
    unfold bind at 1. rewrite Hchat.
    unfold bind at 1. unfold bind at 1. unfold lift at 1. rewrite Hi2. cbn.
    eexists. split; [reflexivity|]. cbn. rewrite Hheap. auto.
  - destruct Himg as [Himg Hfield]. subst img field.
    unfold bind at 1. cbn [ret]. unfold bind at 1. rewrite Hchat.
    cbn. eexists. split; [reflexivity|]. cbn. rewrite Hheap. auto.
Qed.

Section RetryUntilSuccess.
Variable E : Env.
Variables (self : nat) (o : GPT4Vision) (prompt : string).
Variables (image : option image_arg) (img : option Image) (field : value) (kwargs : dict).
Variables (k : nat) (r : value) (D W : Q).

Hypothesis image_resolves : image_reference E image img field.
Hypothesis durations :
  forall n, (0 <= snd (create E n (request_key E o prompt img kwargs)) <= D)%Q.
Hypothesis draws : forall n, (n < k)%nat -> (0 <= jitter E (S n) (expo n) <= W)%Q.

(** The loop entered at the iteration [tries], with [j] refusals to come. *)
Lemma retry_succeeds (j fuel tries : nat) (start : Q) (w : world) :
  heap w !! self = Some o ->
  uncached (request_key E o prompt img kwargs) w ->
  (forall i, (i < j)%nat ->
     fst (create E (length (net_calls w) + i) (request_key E o prompt img kwargs))
     = Raise RateLimitError) ->
  fst (create E (length (net_calls w) + j) (request_key E o prompt img kwargs)) = Ok r ->
  (tries + j <= k)%nat ->
  (start <= clock w)%Q ->
  (clock w - start + inject_Z (Z.of_nat j) * (D + W) < 10 + (D + W))%Q ->
  (j < fuel)%nat ->
  exists w',
    retry (jitter E) expo ERRORS 10 (backoff_hdlr kwargs)
      (request_body E self prompt image kwargs) fuel tries start w
    = Some (Ok r, w')
    /\ length (net_calls w') = (length (net_calls w) + S j)%nat
    /\ length (usage_log w') = (length (usage_log w) + j)%nat
    /\ heap w'
       = alter (fun o' => with_history
                            (history o' ++
                             [history_record E o prompt img field r
                                (without_model_type kwargs)]) o')
           self (heap w).
Proof.
  revert fuel tries w.
  induction j as [|j IH]; intros fuel tries w Ho Hun Hfail Hok Hk Hstart Hbudget Hfuel;
    (destruct fuel as [|fuel]; [lia|]); cbn [retry].
  - rewrite Nat.add_0_r in Hok.
    destruct (create E (length (net_calls w)) (request_key E o prompt img kwargs))
      as [r' d] eqn:Hc. cbn [fst] in Hok. subst r'.
    destruct (attempt_succeeds E self o prompt image img field kwargs w r d
                Ho image_resolves Hun Hc) as (w1 & Hbody & Hnet & _ & Hlog & Hheap).
    rewrite Hbody. exists w1. split; [reflexivity|].
    rewrite Hnet, Hlog, length_app. cbn. repeat split; try lia. exact Hheap.
  - pose proof (Hfail 0%nat ltac:(lia)) as Hfirst. rewrite Nat.add_0_r in Hfirst.
    destruct (durations (length (net_calls w))) as [Hd0 Hd1].
    destruct (create E (length (net_calls w)) (request_key E o prompt img kwargs))
      as [r' d] eqn:Hc. cbn [fst snd] in Hfirst, Hd0, Hd1. subst r'.
    rewrite (attempt_fails E self o prompt image img kwargs w RateLimitError d Ho
               (image_reference_resolves E image img field image_resolves) Hun Hc).
    cbn [ERRORS].
    destruct (draws tries ltac:(lia)) as [Hj0 Hj1].
    rewrite inject_nat_succ in Hbudget.
    assert (Hprod : (0 <= inject_Z (Z.of_nat j) * (D + W))%Q).
    { apply Qmult_le_0_compat; [|lra].
      change 0%Q with (inject_Z 0). rewrite <- Zle_Qle. lia. }
    assert (Hlt : (clock w - start < 10)%Q) by lra.
    destruct (Qle_bool 10 (clock w - start)) eqn:Hb;
      [apply Qle_bool_iff in Hb; lra|].
    set (seconds := Qmin (jitter E (S tries) (expo (pred (S tries))))
                      (10 - (clock w - start))).
    assert (Hs : (0 <= seconds <= W)%Q).
    { unfold seconds, Qmin. cbn [pred].
      destruct (Qle_bool (jitter E (S tries) (expo tries)) (10 - (clock w - start))) eqn:Hm;
        [lra|].
      assert (~ (jitter E (S tries) (expo tries) <= 10 - (clock w - start))%Q).
      { intros Hle. apply Qle_bool_iff in Hle. congruence. }
      lra. }
    destruct (IH fuel (S tries)
                (set_clock (fun t => t + seconds)%Q
                   (backoff_hdlr kwargs seconds (S tries)
                      (after_network_call (request_key E o prompt img kwargs) d w))))
      as (w' & Hrun & Hnet & Hlog & Hheap).
    + exact Ho.
    + exact Hun.
    + intros i Hi. cbn. rewrite length_app. cbn.
      replace (length (net_calls w) + 1 + i)%nat with (length (net_calls w) + S i)%nat by lia.
      apply Hfail. lia.
    + cbn. rewrite length_app. cbn.
      replace (length (net_calls w) + 1 + j)%nat with (length (net_calls w) + S j)%nat by lia.
      exact Hok.
    + lia.
    + cbn. lra.
    + cbn. lra.
    + lia.
    + exists w'. split; [exact Hrun|]. cbn in Hnet, Hlog, Hheap.
      rewrite !length_app in *. cbn in *. repeat split; try lia. exact Hheap.
Qed.
End RetryUntilSuccess.

(** X8.  Rate-limit errors followed by an answer.  Let the request be in
    no store, let the remote end refuse it [k] times and then answer [r],
    every call taking at most [D] and every wait drawn being at most [W],
    with [k * (D + W) < 10 + (D + W)] so that each refused attempt began
    within the budget.  Then [request] returns [r] after exactly [k + 1]
    network calls and [k] logged waits, and the history of the object has
    grown by exactly one record, that of the answered attempt. *)
Theorem retry_until_success (E : Env) (self : nat) (o : GPT4Vision) (prompt : string)
    (image : option image_arg) (img : option Image) (field : value) (kwargs : dict)
    (k : nat) (r : value) (D W : Q) (fuel : nat) (w : world) :
  heap w !! self = Some o ->
  image_reference E image img field ->
  uncached (request_key E o prompt img kwargs) w ->
  (forall i, (i < k)%nat ->
     fst (create E (length (net_calls w) + i) (request_key E o prompt img kwargs))
     = Raise RateLimitError) ->
  fst (create E (length (net_calls w) + k) (request_key E o prompt img kwargs)) = Ok r ->
  (forall n, (0 <= snd (create E n (request_key E o prompt img kwargs)) <= D)%Q) ->
  (forall n, (n < k)%nat -> (0 <= jitter E (S n) (expo n) <= W)%Q) ->
  (inject_Z (Z.of_nat k) * (D + W) < 10 + (D + W))%Q ->
  (k < fuel)%nat ->
  exists w',
    request E self prompt image kwargs fuel w = Some (Ok r, w')
    /\ length (net_calls w') = (length (net_calls w) + S k)%nat
    /\ length (usage_log w') = (length (usage_log w) + k)%nat
    /\ heap w'
       = alter (fun o' => with_history
                            (history o' ++
                             [history_record E o prompt img field r
                                (without_model_type kwargs)]) o')
           self (heap w).
Proof.
  intros Ho Himg Hun Hfail Hok Hdur Hdraw Hbudget Hfuel.
  unfold request, on_exception.
  apply (retry_succeeds E self o prompt image img field kwargs k r D W Himg Hdur Hdraw);
    try assumption; try lia; lra.
Qed.

Lemma retry_until_success_witness :
  let answer := fun (n : nat) (_ : string) =>
                  if Nat.ltb n 2 then (Raise RateLimitError, 1%Q)
                  else (Ok Examples.three_choices, 1%Q) in
  exists w',
    request (Demo.env true answer) 0 "hello" None [] 3 (Examples.client (Some "chat"))
    = Some (Ok Examples.three_choices, w')
    /\ length (net_calls w') = 3%nat
    /\ length (usage_log w') = 2%nat
    /\ heap w'
       = alter (fun o' => with_history
                            (history o' ++
                             [history_record (Demo.env true answer) Examples.chat_object
                                "hello" None VNone Examples.three_choices
                                (without_model_type [])]) o')
           0%nat (heap (Examples.client (Some "chat"))).
Proof.
  intros answer.
  refine (retry_until_success (Demo.env true answer) 0 Examples.chat_object "hello" None None
            VNone [] 2 Examples.three_choices 1 2 3 (Examples.client (Some "chat"))
            eq_refl _ _ _ eq_refl _ _ _ _).
  - split; reflexivity.
  - repeat split; exact (lookup_empty _).
  - intros [|[|i]] Hi; [reflexivity|reflexivity|lia].
  - intros n. cbn. unfold answer. destruct (n <? 2)%nat; cbn; lra.
  - intros [|[|n]] Hn; [vm_compute; split; discriminate|vm_compute; split; discriminate|lia].
  - vm_compute. reflexivity.
  - lia.
Defined.

(** A cached request takes no time, or the time of its network call. *)
Lemma chat_request_clock (E : Env) (key : string) (w : world) :
  clock (snd (chat_request E key w)) = clock w
  \/ clock (snd (chat_request E key w))
     = (clock w + snd (create E (length (net_calls w)) key))%Q.
Proof.
  case_chat_request E key; first [left; reflexivity|right; reflexivity].
Qed.

(** Time never runs backwards in an attempt, when no network call takes a
    negative time. *)
Lemma request_body_clock (E : Env) (self : nat) (prompt : string)
    (image : option image_arg) (kwargs : dict) (w : world) :
  (forall n s, (0 <= snd (create E n s))%Q) ->
  (clock w <= clock (snd (request_body E self prompt image kwargs w)))%Q.
Proof.
  intros Hdur. unfold request_body, basic_request, attr.
  generalize (if Dict.mem "model_type" kwargs then Dict.del "model_type" kwargs else kwargs).
  intros kw. unfold bind at 1.
  destruct (heap w !! self) as [o|]; [|apply Qle_refl]. cbn [id].
  assert (Hchat : forall key (rest : value -> M value),
            (forall r w0, clock (snd (rest r w0)) = clock w0) ->
            (clock w <= clock (snd (bind (chat_request E key) rest w)))%Q).
  { intros key rest Hrest. unfold bind.
    assert (Hc : (clock w <= clock (snd (chat_request E key w)))%Q).
    { pose proof (Hdur (length (net_calls w)) key).
      destruct (chat_request_clock E key w) as [-> | ->]; lra. }
    destruct (chat_request E key w) as [[r|e] w0]; cbn [snd] in *; [|exact Hc].
    rewrite Hrest. exact Hc. }
  destruct image as [i|].
  - unfold bind at 1. unfold bind at 1. unfold lift at 1.
    destruct (init_from E i) as [resolved|e]; [|apply Qle_refl]. cbn [ret].
    apply Hchat. intros r w0. unfold bind at 1. unfold bind at 1. unfold lift at 1.
    destruct (init_from E (ImgObj resolved)); reflexivity.
  - unfold bind at 1. cbn [ret]. apply Hchat. intros r w0. reflexivity.
Qed.

Lemma waits_sum_snoc (l : list log_record) (wait : Q) (tries : nat) (kwargs : dict) :
  (waits_sum (l ++ [LogBackoff wait tries kwargs]) == waits_sum l + wait)%Q.
Proof.
  induction l as [|[s t kw|t] l IH]; cbn [app waits_sum].
  - ring.
  - rewrite IH. ring.
  - exact IH.
Qed.

Section Waits.
Variable E : Env.
Variables (self : nat) (prompt : string) (image : option image_arg) (kwargs : dict).

Hypothesis durations : forall n s, (0 <= snd (create E n s))%Q.
Hypothesis draws : forall n v, (0 <= v -> 0 <= jitter E n v)%Q.

(** The waits logged so far fit in the time elapsed and in the budget, and
    the loop keeps it so. *)
Lemma retry_waits (fuel tries : nat) (start base : Q) (w w' : world) (res : result value) :
  (start <= clock w)%Q ->
  (waits_sum (usage_log w) <= base + (clock w - start))%Q ->
  (waits_sum (usage_log w) <= base + 10)%Q ->
  retry (jitter E) expo ERRORS 10 (backoff_hdlr kwargs)
    (request_body E self prompt image kwargs) fuel tries start w = Some (res, w') ->
  (waits_sum (usage_log w') <= base + 10)%Q.
Proof.
  revert tries w. induction fuel as [|fuel IH]; intros tries w Hstart Hel Hcap Hrun;
    [discriminate|].
  cbn [retry] in Hrun.
  pose proof (request_body_effects E self prompt image kwargs w) as (Hlog & _).
  pose proof (request_body_clock E self prompt image kwargs w durations) as Hclock.
  destruct (request_body E self prompt image kwargs w) as [[r|e] w1]; cbn [snd] in *.
  - injection Hrun as <- <-. rewrite Hlog. exact Hcap.
  - destruct (ERRORS e); [|injection Hrun as <- <-; rewrite Hlog; exact Hcap].
    destruct (Qle_bool 10 (clock w - start)) eqn:Hb;
      [injection Hrun as <- <-; rewrite Hlog; exact Hcap|].
    assert (Hlt : (clock w - start < 10)%Q).
    { apply Qnot_le_lt. intros Hle. apply Qle_bool_iff in Hle. congruence. }
    destruct (Qmin_bounds (jitter E (S tries) (expo (pred (S tries))))
                (10 - (clock w - start))) as [Hs0 Hs1];
      [apply draws, expo_nonneg|lra|].
    set (seconds := Qmin (jitter E (S tries) (expo (pred (S tries))))
                      (10 - (clock w - start))) in *.
    apply IH in Hrun; [exact Hrun| | |];
      unfold set_clock, backoff_hdlr, set_usage_log; cbn [clock usage_log];
      rewrite ?Hlog, ?waits_sum_snoc; lra.
Qed.
End Waits.

Lemma waits_sum_app (l l' : list log_record) :
  (waits_sum (l ++ l') == waits_sum l + waits_sum l')%Q.
Proof.
  induction l as [|[s t kw|t] l IH]; cbn [app waits_sum].
  - ring.
  - rewrite IH. ring.
  - exact IH.
Qed.

(** The figure shown is within half a tenth of the wait. *)
Lemma shown_wait_close (wait : Q) :
  (wait - (1 # 20) <= shown_wait wait <= wait + (1 # 20))%Q.
Proof.
  unfold shown_wait.
  pose proof (Qfloor_le (wait * 10)) as Hle.
  pose proof (Qlt_floor (wait * 10)) as Hlt.
  rewrite inject_Z_plus in Hlt. change (inject_Z 1) with 1%Q in Hlt.
  set (n := Qfloor (wait * 10)) in *.
  destruct (Qcompare_spec (wait * 10 - inject_Z n) (1 # 2)) as [Heq|Hless|Hmore].
  - destruct (Z.even n); rewrite ?inject_Z_plus; change (inject_Z 1) with 1%Q; lra.
  - lra.
  - rewrite inject_Z_plus. change (inject_Z 1) with 1%Q. lra.
Qed.

Lemma shown_waits_sum_close (l : list log_record) :
  (shown_waits_sum l <= waits_sum l + inject_Z (Z.of_nat (length l)) * (1 # 20))%Q.
Proof.
  induction l as [|[s t kw|t] l IH]; cbn [shown_waits_sum waits_sum length].
  - change (inject_Z (Z.of_nat 0)) with 0%Q. lra.
  - rewrite inject_nat_succ. pose proof (shown_wait_close s). lra.
  - rewrite inject_nat_succ. lra.
Qed.

(** The loop appends to the log and writes nowhere else in it. *)
Lemma retry_log_extends (E : Env) (self : nat) (prompt : string) (image : option image_arg)
    (kwargs : dict) (fuel tries : nat) (start : Q) (w w' : world) (res : result value) :
  retry (jitter E) expo ERRORS 10 (backoff_hdlr kwargs)
    (request_body E self prompt image kwargs) fuel tries start w = Some (res, w') ->
  exists new, usage_log w' = usage_log w ++ new.
Proof.
  revert tries w. induction fuel as [|fuel IH]; intros tries w Hrun; [discriminate|].
  cbn [retry] in Hrun.
  pose proof (request_body_effects E self prompt image kwargs w) as (Hlog & _).
  assert (Hsame : forall w0, usage_log w0 = usage_log w ->
            exists new, usage_log w0 = usage_log w ++ new).
  { intros w0 H0. exists []. rewrite app_nil_r. exact H0. }
  destruct (request_body E self prompt image kwargs w) as [[r|e] w1]; cbn [snd] in *.
  - injection Hrun as <- <-. exact (Hsame _ Hlog).
  - destruct (ERRORS e); [|injection Hrun as <- <-; exact (Hsame _ Hlog)].
    destruct (Qle_bool 10 (clock w - start));
      [injection Hrun as <- <-; exact (Hsame _ Hlog)|].
    apply IH in Hrun. destruct Hrun as [new Hnew].
    unfold set_clock, backoff_hdlr, set_usage_log in Hnew. cbn [usage_log] in Hnew.
    rewrite Hlog, <- app_assoc in Hnew. eexists. exact Hnew.
Qed.

(** X9.  The waits fit in the budget.  When no network call takes a
    negative time and no draw of the jitter is negative, a run of [request]
    only appends to the log, and the waits of the lines it appends, which
    are the waits it has slept, add up to at most 10, whatever the remote
    end does and however the run ends.  A line shows its wait to one
    decimal, so the figures shown add up to at most 10 and half a tenth for
    each line. *)
Theorem waits_within_budget (E : Env) (self : nat) (prompt : string)
    (image : option image_arg) (kwargs : dict) (fuel : nat) (w w' : world)
    (res : result value) :
  (forall n s, (0 <= snd (create E n s))%Q) ->
  (forall n v, (0 <= v -> 0 <= jitter E n v)%Q) ->
  request E self prompt image kwargs fuel w = Some (res, w') ->
  exists new,
    usage_log w' = usage_log w ++ new
    /\ (waits_sum new <= 10)%Q
    /\ (shown_waits_sum new <= 10 + inject_Z (Z.of_nat (length new)) * (1 # 20))%Q.
Proof.
  intros Hdur Hdraw Hrun. unfold request, on_exception in Hrun.
  destruct (retry_log_extends _ _ _ _ _ _ _ _ _ _ _ Hrun) as [new Hnew].
  apply (retry_waits E self prompt image kwargs Hdur Hdraw) with (base := waits_sum (usage_log w))
    in Hrun; [|apply Qle_refl|lra|lra].
  rewrite Hnew, waits_sum_app in Hrun.
  exists new. split; [exact Hnew|]. split; [lra|].
  pose proof (shown_waits_sum_close new). lra.
Qed.

(** Refusals that take no time, and draws of 0.96, 1.96 and 3.96; the
    fourth wait is the 3.12 left of the budget. *)
Lemma waits_within_budget_witness :
  let E := with_draws [96 # 100; 196 # 100; 396 # 100]
             (Demo.env true (Demo.fails RateLimitError 0)) in
  exists res w' new,
    request E 0 "hello" None [] 9 (Examples.client (Some "chat")) = Some (res, w')
    /\ usage_log w' = usage_log (Examples.client (Some "chat")) ++ new
    /\ (waits_sum new <= 10)%Q
    /\ (shown_waits_sum new <= 10 + inject_Z (Z.of_nat (length new)) * (1 # 20))%Q.
Proof.
  intros E.
  assert (Hruns : (fun r => true) <$> request E 0 "hello" None [] 9
                                        (Examples.client (Some "chat")) = Some true)
    by (vm_compute; reflexivity).
  destruct (request E 0 "hello" None [] 9 (Examples.client (Some "chat")))
    as [[res w']|] eqn:Hrun; [|discriminate].
  destruct (waits_within_budget E 0 "hello" None [] 9 (Examples.client (Some "chat")) w' res)
    as (new & Hnew & Hsum & Hshown).
  - intros n s. cbn. lra.
  - intros n v Hv. unfold E. cbn [jitter with_draws].
    destruct n as [|[|[|[|[|n]]]]]; cbn [pred nth]; lra.
  - exact Hrun.
  - exists res, w', new. auto.
Defined.

(** The run of the witness: the lines show 1.0, 2.0, 4.0 and 3.1, which add
    up to 10.1, for waits that add up to 10. *)
Example shown_waits_example :
  let E := with_draws [96 # 100; 196 # 100; 396 # 100]
             (Demo.env true (Demo.fails RateLimitError 0)) in
  let r := request E 0 "hello" None [] 9 (Examples.client (Some "chat")) in
  fst <$> r = Some (Raise RateLimitError)
  /\ (List.map (fun l => match l with
                         | LogBackoff wait _ _ => Qred (shown_wait wait)
                         | LogTokens _ => 0%Q
                         end) ∘ usage_log ∘ snd) <$> r
     = Some [1%Q; 2%Q; 4%Q; (31 # 10)%Q]
  /\ (Qred ∘ waits_sum ∘ usage_log ∘ snd) <$> r = Some 10%Q
  /\ (Qred ∘ shown_waits_sum ∘ usage_log ∘ snd) <$> r = Some (101 # 10)%Q.
Proof. vm_compute. repeat split. Qed.

(** The run with whole waits: attempts of 3 time units begin at times 0, 4
    and 9; the waits are 1, 2 and the 1 that is left of the budget (the draw
    was 4); the fourth attempt begins at 13 and is the last. *)
Example waits_example :
  let r := request (Demo.env true (Demo.fails RateLimitError 3)) 0 "hello" None [] 9
             (Examples.client (Some "chat")) in
  fst <$> r = Some (Raise RateLimitError)
  /\ (usage_log ∘ snd) <$> r
     = Some [LogBackoff 1 1 []; LogBackoff 2 2 []; LogBackoff (10 - (0 + 3 + 1 + 3 + 2 - 0)) 3 []]
  /\ (length ∘ net_calls ∘ snd) <$> r = Some 4%nat.
Proof. vm_compute. repeat split. Qed.

(** X10.  An image that cannot be resolved: the exception of
    [Image.init_from] reaches the caller of [__call__] at once; nothing was
    sent, stored, logged or recorded, and the call is not retried. *)
Theorem unresolved_image_is_not_sent (E : Env) (self : nat) (o : GPT4Vision)
    (prompt : string) (i : image_arg) (kwargs : dict) (fuel : nat) (w : world) (e : exn) :
  heap w !! self = Some o ->
  init_from E i = Raise e ->
  e <> RateLimitError ->
  __call__ E self prompt (Some i) true false kwargs (S fuel) w = Some (Raise e, w).
Proof.
  intros Ho Hi He. unfold __call__, request, on_exception. cbn [negb retry].
  assert (Hbody : request_body E self prompt (Some i) kwargs w = (Raise e, w)).
  { unfold request_body, basic_request, attr. unfold bind at 1. rewrite Ho. cbn [id].
    unfold bind at 1. unfold bind at 1. unfold lift at 1. rewrite Hi. reflexivity. }
  rewrite Hbody. destruct (ERRORS e) eqn:Herr; [|reflexivity].
  apply ERRORS_spec in Herr. congruence.
Qed.

Lemma unresolved_image_is_not_sent_witness :
  __call__ (Demo.env true (Demo.answers Examples.three_choices 1)) 0 "hello"
    (Some (ImgArray [0; 255]%Z)) true false [] 1 (Examples.client (Some "chat"))
  = Some (Raise ValueError, Examples.client (Some "chat")).
Proof.
  apply (unresolved_image_is_not_sent (Demo.env true (Demo.answers Examples.three_choices 1))
           0 Examples.chat_object); [reflexivity|reflexivity|discriminate].
Defined.

(** ** Calls end to end *)

(** A response that the retry loop returns is the response of an attempt. *)
Lemma retry_ok_inv {A} (jit : nat -> Q -> Q) (wait_gen : nat -> Q) (exc : exn -> bool)
    (max_time : Q) (hdlr : Q -> nat -> world -> world) (target : M A)
    (fuel tries : nat) (start : Q) (w w' : world) (r : A) :
  retry jit wait_gen exc max_time hdlr target fuel tries start w = Some (Ok r, w') ->
  exists w0, target w0 = (Ok r, w').
Proof.
  revert tries w. induction fuel as [|fuel IH]; intros tries w Hrun; [discriminate|].
  cbn [retry] in Hrun. destruct (target w) as [[r0|e] w1] eqn:Ht.
  - injection Hrun as <- <-. eauto.
  - destruct (exc e); [|discriminate].
    destruct (Qle_bool max_time (clock w - start)); [discriminate|].
    apply IH in Hrun. exact Hrun.
Qed.

(** What an attempt that returns has done. *)
Lemma request_body_ok_inv (E : Env) (self : nat) (prompt : string)
    (image : option image_arg) (kwargs : dict) (w w' : world) (r : value) :
  request_body E self prompt image kwargs w = (Ok r, w') ->
  exists o img field w1,
    heap w !! self = Some o
    /\ image_reference E image img field
    /\ chat_request E (request_key E o prompt img kwargs) w = (Ok r, w1)
    /\ w' = set_heap
              (alter (fun o' => with_history
                                  (history o' ++
                                   [history_record E o prompt img field r
                                      (without_model_type kwargs)]) o') self) w1.
Proof.
  unfold request_key, request_body, basic_request, attr, history_record.
  fold (without_model_type kwargs). generalize (without_model_type kwargs). intros kw.
  unfold bind at 1. destruct (heap w !! self) as [o|]; [|discriminate]. cbn [id].
  destruct image as [i|].
  - unfold bind at 1. unfold bind at 1. unfold lift at 1.
    destruct (init_from E i) as [resolved|e] eqn:Hi; [|discriminate]. cbn [ret].
    unfold bind at 1.
    destruct (chat_request E _ w) as [[r0|e] w1] eqn:Hchat; [|discriminate].
    unfold bind at 1. unfold bind at 1. unfold lift at 1.
    destruct (init_from E (ImgObj resolved)) as [again|e] eqn:Hi2; [|discriminate].
    cbn. intros H. injection H as <- <-.
    exists o, (Some resolved), (VStr (image_url again)), w1.
    repeat split; [|exact Hchat]. exists resolved, again. auto.
  - unfold bind at 1. cbn [ret]. unfold bind at 1.
    destruct (chat_request E _ w) as [[r0|e] w1] eqn:Hchat; [|discriminate].
    cbn. intros H. injection H as <- <-.
    exists o, None, VNone, w1. repeat split. exact Hchat.
Qed.

(** With the memo on, a cached request that returns leaves its response
    in the memo. *)
Lemma chat_request_ok_memo (E : Env) (key : string) (w w1 : world) (r : value) :
  cache_turn_on E = true ->
  chat_request E key w = (Ok r, w1) ->
  lru w1 !! key = Some r.
Proof.
  intros Hon. unfold_chat_request. rewrite Hon.
  destruct (notebook_memory_on E), (cache_memory_on E);
    repeat (match goal with
            | |- context [match ?m !! key with _ => _ end] =>
                let H := fresh "Hm" in destruct (m !! key) eqn:H
            | |- context [create E ?n key] =>
                let H := fresh "Hc" in destruct (create E n key) as [[?|?] ?] eqn:H
            end; cbn);
    intros H; try discriminate; injection H as <- <-; cbn;
    rewrite ?lookup_insert_eq; congruence.
Qed.

(** An attempt whose request the memo holds. *)
Lemma attempt_memo_hit (E : Env) (self : nat) (o : GPT4Vision) (prompt : string)
    (image : option image_arg) (img : option Image) (field : value) (kwargs : dict)
    (w : world) (r : value) :
  cache_turn_on E = true ->
  heap w !! self = Some o ->
  image_reference E image img field ->
  lru w !! request_key E o prompt img kwargs = Some r ->
  request_body E self prompt image kwargs w
  = (Ok r, set_heap
             (alter (fun o' => with_history
                                 (history o' ++
                                  [history_record E o prompt img field r
                                     (without_model_type kwargs)]) o') self) w).
Proof.
  intros Hon Ho Himg Hhit.
  assert (Hchat : chat_request E (request_key E o prompt img kwargs) w = (Ok r, w)).
  { unfold_chat_request. rewrite Hon, Hhit. reflexivity. }
  unfold request_key in *. unfold request_body, basic_request, attr, history_record.
  fold (without_model_type kwargs) in *.
  set (kw := without_model_type kwargs) in *. clearbody kw.
  unfold bind at 1. rewrite Ho. cbn [id].
  destruct image as [i|]; cbn in Himg.
  - destruct Himg as (resolved & again & Hi & Hi2 & Himg & Hfield). subst img field.
    unfold bind at 1. unfold bind at 1. unfold lift at 1. rewrite Hi. cbn [ret].
    unfold bind at 1. rewrite Hchat.
    unfold bind at 1. unfold bind at 1. unfold lift at 1. rewrite Hi2. reflexivity.
  - destruct Himg as [Himg Hfield]. subst img field.
    unfold bind at 1. cbn [ret]. unfold bind at 1. rewrite Hchat. reflexivity.
Qed.

(** [log_usage] reads the response only and writes the log only. *)
Lemma log_usage_replay (response : value) :
  exists (res : result unit) (f : list log_record -> list log_record),
    forall w0, log_usage response w0 = (res, set_usage_log f w0)
               \/ (log_usage response w0 = (res, w0)).
Proof.
  unfold log_usage, bind, lift, modify, ret.
  destruct (Py.get response "usage") as [usage|e]; [|exists (Raise e), id; auto].
  destruct (Py.truthy usage); [|exists (Ok tt), id; auto].
  destruct (Py.get usage "total_tokens") as [t|e]; [|exists (Raise e), id; auto].
  exists (Ok tt), (fun l => l ++ [LogTokens t]). auto.
Qed.

(** X11.  The same call twice.  With the memo on, when a call has
    returned, the same call made again in the state the first one left
    returns the same texts without a network call and without any time
    passing; it appends to the history a second copy of the record of the
    first call. *)
Theorem repeated_call_hits_memo (E : Env) (self : nat) (prompt : string)
    (image : option image_arg) (kwargs : dict) (fuel fuel' : nat) (w w1 : world)
    (texts : list value) :
  cache_turn_on E = true ->
  __call__ E self prompt image true false kwargs fuel w = Some (Ok texts, w1) ->
  exists w2 o1 record,
    __call__ E self prompt image true false kwargs (S fuel') w1 = Some (Ok texts, w2)
    /\ net_calls w2 = net_calls w1 /\ clock w2 = clock w1
    /\ heap w1 !! self = Some o1
    /\ last (history o1) = Some record
    /\ heap w2 !! self = Some (with_history (history o1 ++ [record]) o1).
Proof.
  intros Hon Hcall.
  apply call_returns_inv in Hcall
    as (_ & _ & response & wA & mt & Hreq & Hlog & Hmt & Hcompl).
  unfold request, on_exception in Hreq. apply retry_ok_inv in Hreq as (w0 & Hbody).
  apply request_body_ok_inv in Hbody as (o & img & field & wB & Ho & Himg & Hchat & ->).
  pose proof (chat_request_ok_memo E _ w0 wB response Hon Hchat) as Hmemo.
  pose proof (chat_request_frame E (request_key E o prompt img kwargs) w0) as [Hheap _].
  rewrite Hchat in Hheap. cbn [snd] in Hheap.
  set (record := history_record E o prompt img field response (without_model_type kwargs))
    in *.
  set (grow := fun o' : GPT4Vision => with_history (history o' ++ [record]) o') in *.
  assert (HoA : heap (set_heap (alter grow self) wB) !! self = Some (grow o)).
  { cbn. rewrite list_lookup_alter_eq, Hheap, Ho. reflexivity. }
  (* the state after the usage log of the first call *)
  destruct (log_usage_replay response) as (res & f & Hreplay).
  assert (Hw1 : heap w1 = heap (set_heap (alter grow self) wB)
                /\ lru w1 = lru wB
                /\ forall w', exists w'',
                     (if log_openai_usage E then log_usage response else ret tt) w'
                     = (Ok tt, w'')
                     /\ heap w'' = heap w' /\ net_calls w'' = net_calls w'
                     /\ clock w'' = clock w').
  { destruct (log_openai_usage E).
    - destruct (Hreplay (set_heap (alter grow self) wB)) as [H|H];
        rewrite H in Hlog; injection Hlog as -> <-;
        (split; [reflexivity|]; split; [reflexivity|]); intros w';
        destruct (Hreplay w') as [H'|H']; rewrite H'; eexists; (split; [reflexivity|]);
        cbn; auto.
    - injection Hlog as <-. split; [reflexivity|]. split; [reflexivity|].
      intros w'. eexists. split; [reflexivity|]. auto. }
  destruct Hw1 as (Hheap1 & Hlru1 & Hlogs).
  assert (Ho1 : heap w1 !! self = Some (grow o)) by (rewrite Hheap1; exact HoA).
  assert (Hhit : lru w1 !! request_key E (grow o) prompt img kwargs = Some response)
    by (rewrite Hlru1; exact Hmemo).
  pose proof (attempt_memo_hit E self (grow o) prompt image img field kwargs w1 response
                Hon Ho1 Himg Hhit) as Hsecond.
  change (history_record E (grow o) prompt img field response (without_model_type kwargs))
    with record in Hsecond. fold grow in Hsecond.
  destruct (Hlogs (set_heap (alter grow self) w1)) as (w2 & Hlog2 & Hh2 & Hn2 & Hc2).
  exists w2, (grow o), record.
  assert (Hmt2 : heap w2 !! self = Some (grow (grow o))).
  { rewrite Hh2. cbn. rewrite list_lookup_alter_eq, Ho1. reflexivity. }
  split; [|split; [exact Hn2|split; [exact Hc2|split; [exact Ho1|split]]]].
  - unfold __call__, request, on_exception. cbn [negb retry]. rewrite Hsecond.
    unfold bind at 1. rewrite Hlog2. unfold bind, attr, lift. rewrite Hmt2.
    rewrite Ho1 in Hmt. cbn in Hmt. injection Hmt as <-. cbn [model_type grow with_history].
    rewrite Hcompl. reflexivity.
  - unfold grow. cbn [history with_history]. apply last_snoc.
  - exact Hmt2.
Qed.

Lemma repeated_call_hits_memo_witness :
  match __call__ (Demo.env true (Demo.answers Examples.three_choices 1)) 0 "hello" None
          true false [] 1 (Examples.client (Some "chat")) with
  | Some (Ok texts, w1) =>
      exists w2 o1 record,
        __call__ (Demo.env true (Demo.answers Examples.three_choices 1)) 0 "hello" None
          true false [] 1 w1 = Some (Ok texts, w2)
        /\ net_calls w2 = net_calls w1 /\ clock w2 = clock w1
        /\ heap w1 !! 0%nat = Some o1
        /\ last (history o1) = Some record
        /\ heap w2 !! 0%nat = Some (with_history (history o1 ++ [record]) o1)
  | _ => False
  end.
Proof.
  assert (Hfirst : fst <$> __call__ (Demo.env true (Demo.answers Examples.three_choices 1))
                             0 "hello" None true false [] 1 (Examples.client (Some "chat"))
                   = Some (Ok [VStr "b"; VStr "c"])) by (vm_compute; reflexivity).
  destruct (__call__ (Demo.env true (Demo.answers Examples.three_choices 1)) 0 "hello" None
              true false [] 1 (Examples.client (Some "chat")))
    as [[[texts|e] w1]|] eqn:Hcall; try discriminate.
  exact (repeated_call_hits_memo (Demo.env true (Demo.answers Examples.three_choices 1)) 0
           "hello" None [] 1 0 (Examples.client (Some "chat")) w1 texts eq_refl Hcall).
Defined.

(** ** The response normalizer *)

(** X20.  The filter of [__call__].  Let a call with [only_completed] true
    (and sorting off) receive a response whose choices all carry a finish
    indicator.  The outcome of the call is the text extraction of the
    object's model type, applied in order to exactly the non-truncated
    choices if there is one, and to all the choices if every one is
    truncated: the texts where the extraction finds them, its exception
    where it does not. *)
Theorem only_completed_filtering (E : Env) (self : nat) (prompt : string)
    (image : option image_arg) (kwargs : dict) (fuel : nat) (w w1 w2 : world)
    (response : value) (mt : string) (cs : list value) :
  request E self prompt image kwargs fuel w = Some (Ok response, w1) ->
  (if log_openai_usage E then log_usage response else ret tt) w1 = (Ok tt, w2) ->
  model_type <$> heap w2 !! self = Some mt ->
  Py.getitem response "choices" = Ok (VList cs) ->
  Forall (fun c => exists fr, Py.getitem c "finish_reason" = Ok fr) cs ->
  (existsb not_length cs = true ->
   __call__ E self prompt image true false kwargs fuel w
   = Some (rmap (_get_choice_text mt) (List.filter not_length cs), w2))
  /\ (existsb not_length cs = false ->
      __call__ E self prompt image true false kwargs fuel w
      = Some (rmap (_get_choice_text mt) cs, w2)).
Proof.
  intros Hreq Hlog Ho Hc Hfr.
  assert (Hcall : __call__ E self prompt image true false kwargs fuel w
                  = Some (rmap (_get_choice_text mt) (kept cs), w2)).
  { unfold __call__. cbn [negb]. rewrite Hreq. unfold bind at 1. rewrite Hlog.
    unfold bind, attr. destruct (heap w2 !! self) as [o|]; [|discriminate].
    injection Ho as ->. unfold lift.
    rewrite (completions_of_kept _ _ _ cs Hc Hfr). reflexivity. }
  unfold kept in Hcall. split; intros Hex; rewrite Hex in Hcall; exact Hcall.
Qed.

Lemma only_completed_filtering_witness :
  fst <$> __call__ (Demo.env true (Demo.answers Examples.three_choices 1)) 0 "hello" None
            true false [] 1 (Examples.client (Some "chat"))
  = Some (Ok [VStr "b"; VStr "c"]).
Proof.
  set (E := Demo.env true (Demo.answers Examples.three_choices 1)).
  set (w := Examples.client (Some "chat")).
  assert (Hfr : Forall (fun c => exists fr, Py.getitem c "finish_reason" = Ok fr)
                  [Demo.chat_choice "length" "a"; Demo.chat_choice "stop" "b";
                   Demo.chat_choice "stop" "c"]).
  { repeat constructor; eexists; reflexivity. }
  assert (Hreq : fst (request_body E 0 "hello" None [] w) = Ok Examples.three_choices)
    by (vm_compute; reflexivity).
  apply (request_first_attempt E 0 "hello" None [] 0 w) in Hreq.
  assert (Hmt : model_type <$> heap (snd (request_body E 0 "hello" None [] w)) !! 0
                = Some "chat") by (vm_compute; reflexivity).
  rewrite (proj1 (only_completed_filtering E 0 "hello" None [] 1 w _ _
                    Examples.three_choices "chat" _ Hreq eq_refl Hmt eq_refl Hfr) eq_refl).
  reflexivity.
Defined.

(** The second example of the specification: two truncated choices are both
    returned. *)
Example only_completed_fallback :
  fst <$> __call__ (Demo.env true (Demo.answers Examples.two_truncated 1)) 0 "hello" None
            true false [] 1 (Examples.client (Some "chat"))
  = Some (Ok [VStr "a"; VStr "b"]).
Proof. vm_compute. reflexivity. Qed.

Lemma rmap_length {A B} (f : A -> result B) (l : list A) (l' : list B) :
  rmap f l = Ok l' -> length l' = length l.
Proof.
  revert l'. induction l as [|x l IH]; intros l' H; cbn [rmap] in H.
  - injection H as <-. reflexivity.
  - destruct (f x) as [y|]; [|discriminate]. cbn [rbind] in H.
    destruct (rmap f l) as [ys|]; [|discriminate]. cbn [rbind] in H.
    injection H as <-. cbn. rewrite (IH ys eq_refl). reflexivity.
Qed.

Lemma kept_length (cs : list value) :
  (length (kept cs) <= length cs)%nat /\ (cs <> [] -> kept cs <> []).
Proof.
  unfold kept. destruct (existsb not_length cs) eqn:Hex.
  - split; [apply filter_length_le|]. intros _ Hnil.
    apply existsb_exists in Hex as (c & Hin & Hc).
    assert (Hf : In c (List.filter not_length cs)) by (apply filter_In; auto).
    rewrite Hnil in Hf. exact Hf.
  - split; [lia|auto].
Qed.

(** What the normalizer has done when it returns, with [only_completed]
    set and sorting off. *)
Lemma completions_of_ok_inv (mt : string) (kwargs : dict) (response : value)
    (texts : list value) :
  completions_of mt true false kwargs response = Ok texts ->
  exists choices,
    (let+ c := Py.getitem response "choices" in Py.iter c) = Ok choices
    /\ rmap (_get_choice_text mt) (kept choices) = Ok texts.
Proof.
  unfold completions_of. intros Hc.
  destruct (Py.getitem response "choices") as [c|]; [|discriminate]. cbn [rbind] in Hc |- *.
  destruct (Py.iter c) as [choices|]; [|discriminate]. cbn [rbind] in Hc.
  exists choices. split; [reflexivity|].
  destruct (rfilter completed choices) as [done|] eqn:Hdone; [|discriminate].
  cbn [rbind andb] in Hc. apply rfilter_completed_inv in Hdone as ->.
  rewrite existsb_filter_length in Hc. fold (kept choices) in Hc.
  destruct (rmap (_get_choice_text mt) (kept choices)); [|discriminate].
  cbn in Hc. exact Hc.
Qed.

(** X12.  A call that returns gives one text for each choice it kept: never
    more texts than the response has choices, and at least one text when
    the response has a choice, also when every choice was truncated. *)
Theorem call_returns_some_text (E : Env) (self : nat) (prompt : string)
    (image : option image_arg) (only_completed return_sorted : bool) (kwargs : dict)
    (fuel : nat) (w w' : world) (texts : list value) :
  __call__ E self prompt image only_completed return_sorted kwargs fuel w
  = Some (Ok texts, w') ->
  exists response w1 choices,
    request E self prompt image kwargs fuel w = Some (Ok response, w1)
    /\ (let+ c := Py.getitem response "choices" in Py.iter c) = Ok choices
    /\ length texts = length (kept choices)
    /\ (length texts <= length choices)%nat
    /\ (choices <> [] -> texts <> []).
Proof.
  intros H. apply call_returns_inv in H as (_ & _ & response & w1 & mt & Hreq & _ & _ & Hc).
  apply completions_of_ok_inv in Hc as (choices & Hchoices & Htexts).
  apply rmap_length in Htexts. destruct (kept_length choices) as [Hle Hne].
  exists response, w1, choices. repeat split; try assumption; [lia|].
  intros Hcs Hnil. apply Hne in Hcs. rewrite Hnil in Htexts.
  destruct (kept choices); [congruence|discriminate].
Qed.

Lemma call_returns_some_text_witness :
  match __call__ (Demo.env true (Demo.answers Examples.two_truncated 1)) 0 "hello" None
          true false [] 1 (Examples.client (Some "chat")) with
  | Some (Ok texts, _) => length texts = 2%nat
  | _ => False
  end.
Proof.
  assert (Hfirst : fst <$> __call__ (Demo.env true (Demo.answers Examples.two_truncated 1))
                             0 "hello" None true false [] 1 (Examples.client (Some "chat"))
                   = Some (Ok [VStr "a"; VStr "b"])) by (vm_compute; reflexivity).
  destruct (__call__ (Demo.env true (Demo.answers Examples.two_truncated 1)) 0 "hello" None
              true false [] 1 (Examples.client (Some "chat")))
    as [[[texts|e] w1]|] eqn:Hcall; try discriminate.
  destruct (call_returns_some_text _ _ _ _ _ _ _ _ _ _ _ Hcall)
    as (response & w2 & choices & _ & _ & _ & _ & _).
  cbn in Hfirst. injection Hfirst as ->. reflexivity.
Defined.

(** X13.  [log_usage] on a response dictionary.  Nothing is logged, and
    nothing is raised, when the response has no ["usage"] entry or a falsy
    one ([None], an empty dictionary); a usage dictionary with entries adds
    one line with its ["total_tokens"] ([None] when it has none); a truthy
    usage that is not a dictionary raises [AttributeError] and logs nothing.
    In every case nothing but the log is written. *)
Theorem log_usage_on_dict (d : dict) (w : world) :
  match Dict.get "usage" d with
  | Some (VDict (kv :: usage)) =>
      log_usage (VDict d) w
      = (Ok tt,
         set_usage_log
           (fun l => l ++ [LogTokens (default VNone (Dict.get "total_tokens" (kv :: usage)))])
           w)
  | Some usage =>
      log_usage (VDict d) w
      = (if Py.truthy usage then Raise AttributeError else Ok tt, w)
  | None => log_usage (VDict d) w = (Ok tt, w)
  end.
Proof.
  unfold log_usage, bind, lift, modify, ret. cbn [Py.get].
  destruct (Dict.get "usage" d) as [usage|]; [|reflexivity]. cbn [default].
  destruct usage as [|b|z|f|s|l|[|kv u]]; cbn; try reflexivity;
    match goal with |- context [if ?c then _ else _] => destruct c end; reflexivity.
Qed.

(** ** Termination of the retry loop, and the cache across clients *)

(** An exception of a cached request is the exception of its network
    call. *)
Lemma chat_request_raise_inv (E : Env) (key : string) (w w1 : world) (e : exn) :
  chat_request E key w = (Raise e, w1) ->
  exists d, create E (length (net_calls w)) key = (Raise e, d)
            /\ w1 = after_network_call key d w.
Proof.
  unfold after_network_call.
  case_chat_request E key; intros H; try discriminate; injection H as <- <-; eauto.
Qed.

(** A rate-limit error of an attempt comes from a network call, when the
    image resolver raises none. *)
Lemma attempt_rate_limited_inv (E : Env) (self : nat) (prompt : string)
    (image : option image_arg) (kwargs : dict) (w w1 : world) :
  (forall i, init_from E i <> Raise RateLimitError) ->
  request_body E self prompt image kwargs w = (Raise RateLimitError, w1) ->
  exists key d, create E (length (net_calls w)) key = (Raise RateLimitError, d)
                /\ w1 = after_network_call key d w.
Proof.
  intros Hinit. unfold request_body, basic_request, attr.
  generalize (if Dict.mem "model_type" kwargs then Dict.del "model_type" kwargs else kwargs).
  intros kw. unfold bind at 1.
  destruct (heap w !! self) as [o|]; [|discriminate]. cbn [id].
  destruct image as [i|].
  - unfold bind at 1. unfold bind at 1. unfold lift at 1.
    destruct (init_from E i) as [resolved|e] eqn:Hi;
      [|intros H; injection H as -> _; exfalso; apply (Hinit i Hi)].
    cbn [ret]. unfold bind at 1.
    destruct (chat_request E _ w) as [[r|e] w0] eqn:Hchat.
    + unfold bind at 1. unfold bind at 1. unfold lift at 1.
      destruct (init_from E (ImgObj resolved)) as [again|e] eqn:Hi2; [discriminate|].
      intros H. injection H as -> _. exfalso. apply (Hinit _ Hi2).
    + intros H. injection H as -> <-. apply chat_request_raise_inv in Hchat. eauto.
  - unfold bind at 1. cbn [ret]. unfold bind at 1.
    destruct (chat_request E _ w) as [[r|e] w0] eqn:Hchat; [discriminate|].
    intros H. injection H as -> <-. apply chat_request_raise_inv in Hchat. eauto.
Qed.

Section Termination.
Variable E : Env.
Variables (self : nat) (prompt : string) (image : option image_arg) (kwargs : dict).
Variable delta : Q.

Hypothesis durations : forall n s, (delta <= snd (create E n s))%Q.
Hypothesis resolver : forall i, init_from E i <> Raise RateLimitError.
Hypothesis draws : forall n v, (0 <= v -> 0 <= jitter E n v)%Q.

Lemma retry_terminates (fuel tries : nat) (start : Q) (w : world) :
  (10 - (clock w - start) + delta <= inject_Z (Z.of_nat fuel) * delta)%Q ->
  (1 <= fuel)%nat ->
  exists res w',
    retry (jitter E) expo ERRORS 10 (backoff_hdlr kwargs)
      (request_body E self prompt image kwargs) fuel tries start w = Some (res, w').
Proof.
  revert tries w. induction fuel as [|fuel IH]; intros tries w Hfuel Hone; [lia|].
  cbn [retry].
  destruct (request_body E self prompt image kwargs w) as [[r|e] w1] eqn:Hbody; [eauto|].
  destruct (ERRORS e) eqn:He; [|eauto]. apply ERRORS_spec in He. subst e.
  destruct (Qle_bool 10 (clock w - start)) eqn:Hb; [eauto|].
  assert (Hlt : (clock w - start < 10)%Q).
  { apply Qnot_le_lt. intros Hle. apply Qle_bool_iff in Hle. congruence. }
  apply (attempt_rate_limited_inv E self prompt image kwargs w w1 resolver) in Hbody
    as (key & d & Hc & ->).
  pose proof (durations (length (net_calls w)) key) as Hd. rewrite Hc in Hd. cbn [snd] in Hd.
  destruct (Qmin_bounds (jitter E (S tries) (expo (pred (S tries))))
              (10 - (clock w - start))) as [Hs0 Hs1];
    [apply draws, expo_nonneg|lra|].
  set (seconds := Qmin (jitter E (S tries) (expo (pred (S tries))))
                    (10 - (clock w - start))) in *.
  rewrite inject_nat_succ in Hfuel.
  apply IH.
  - cbn. lra.
  - destruct fuel; [|lia]. change (inject_Z (Z.of_nat 0)) with 0%Q in Hfuel. lra.
Qed.
End Termination.

(** X14.  [request] terminates, whatever the remote end answers.  When
    every network call takes at least [delta > 0], the image resolver raises
    no rate-limit error of its own and no draw of the jitter is negative,
    the retry loop makes at most [fuel] attempts, for any [fuel] with
    [10 + delta <= fuel * delta]: the call returns a response or raises. *)
Theorem request_terminates (E : Env) (self : nat) (prompt : string)
    (image : option image_arg) (kwargs : dict) (delta : Q) (fuel : nat) (w : world) :
  (0 < delta)%Q ->
  (forall n s, (delta <= snd (create E n s))%Q) ->
  (forall i, init_from E i <> Raise RateLimitError) ->
  (forall n v, (0 <= v -> 0 <= jitter E n v)%Q) ->
  (10 + delta <= inject_Z (Z.of_nat fuel) * delta)%Q ->
  exists res w', request E self prompt image kwargs fuel w = Some (res, w').
Proof.
  intros Hdelta Hdur Hres Hdraw Hfuel. unfold request, on_exception.
  apply (retry_terminates E self prompt image kwargs delta Hdur Hres Hdraw).
  - lra.
  - destruct fuel; [|lia]. change (inject_Z (Z.of_nat 0)) with 0%Q in Hfuel. lra.
Qed.

Lemma request_terminates_witness :
  let answer := fun (n : nat) (_ : string) =>
                  if Nat.even n then (Raise RateLimitError, 2%Q)
                  else (Raise (APIError "bad gateway"), 2%Q) in
  exists res w',
    request (Demo.env true answer) 0 "hello" None [] 6 (Examples.client (Some "chat"))
    = Some (res, w').
Proof.
  intros answer.
  apply (request_terminates (Demo.env true answer) 0 "hello" None [] 2 6).
  - reflexivity.
  - intros n s. cbn. unfold answer. destruct (Nat.even n); cbn; lra.
  - intros [s|a|i]; cbn; [destruct (String.eqb s "")|..]; discriminate.
  - intros n v Hv. exact Hv.
  - vm_compute. discriminate.
Defined.

(** X15.  The memo is shared by the clients of a process and keyed by the
    request alone.  With the memo on, after a client has got a response,
    another client with the same options and system prompt that sends the
    same prompt, image and keyword arguments gets that response from the
    memo: no network call is made and no time passes; the history of the
    first client is as it was and the record goes to the second. *)
Theorem memo_is_shared_by_clients (E : Env) (a b : nat) (oa ob : GPT4Vision)
    (prompt : string) (image : option image_arg) (kw : dict) (w w1 : world) (r : value) :
  cache_turn_on E = true ->
  a <> b ->
  heap w !! a = Some oa ->
  heap w !! b = Some ob ->
  kwargs ob = kwargs oa ->
  system_prompt ob = system_prompt oa ->
  request_body E a prompt image kw w = (Ok r, w1) ->
  exists w2 record,
    request_body E b prompt image kw w1 = (Ok r, w2)
    /\ net_calls w2 = net_calls w1 /\ clock w2 = clock w1
    /\ heap w2 !! a = heap w1 !! a
    /\ heap w2 !! b = Some (with_history (history ob ++ [record]) ob).
Proof.
  intros Hon Hab Ha Hb Hopts Hsys Hfirst.
  apply request_body_ok_inv in Hfirst as (o & img & field & wB & Ho & Himg & Hchat & ->).
  rewrite Ha in Ho. injection Ho as <-.
  pose proof (chat_request_ok_memo E _ w wB r Hon Hchat) as Hmemo.
  pose proof (chat_request_frame E (request_key E oa prompt img kw) w) as [Hheap _].
  rewrite Hchat in Hheap. cbn [snd] in Hheap.
  assert (Hkey : request_key E ob prompt img kw = request_key E oa prompt img kw).
  { unfold request_key, build_kwargs. rewrite Hopts, Hsys. reflexivity. }
  set (w1 := set_heap _ wB).
  assert (Hb1 : heap w1 !! b = Some ob).
  { unfold w1. cbn. rewrite list_lookup_alter_ne by exact Hab. rewrite Hheap. exact Hb. }
  assert (Hhit : lru w1 !! request_key E ob prompt img kw = Some r)
    by (rewrite Hkey; exact Hmemo).
  rewrite (attempt_memo_hit E b ob prompt image img field kw w1 r Hon Hb1 Himg Hhit).
  eexists _, _. split; [reflexivity|]. cbn [net_calls clock heap set_heap].
  split; [reflexivity|]. split; [reflexivity|]. split.
  - apply list_lookup_alter_ne. congruence.
  - rewrite list_lookup_alter_eq. fold (heap w1). rewrite Hb1. reflexivity.
Qed.

Lemma memo_is_shared_by_clients_witness :
  let E := Demo.env true (Demo.answers Examples.three_choices 1) in
  let w := snd (__init__ "gpt-4-vision-preview" None "openai" None (Some "text") None []
                  (Examples.client (Some "chat"))) in
  match request_body E 0 "hello" None [] w with
  | (Ok r, w1) =>
      exists w2 record,
        request_body E 1 "hello" None [] w1 = (Ok r, w2)
        /\ net_calls w2 = net_calls w1 /\ clock w2 = clock w1
        /\ heap w2 !! 0%nat = heap w1 !! 0%nat
        /\ heap w2 !! 1%nat
           = Some (with_history
                     (history (with_history [] Examples.chat_object) ++ [record])
                     {| provider := "openai"; model_type := "text"; system_prompt := None;
                        kwargs := kwargs Examples.chat_object; history := [] |})
  | _ => False
  end.
Proof.
  intros E w.
  assert (Hfirst : fst (request_body E 0 "hello" None [] w) = Ok Examples.three_choices)
    by (vm_compute; reflexivity).
  destruct (request_body E 0 "hello" None [] w) as [[r|e] w1] eqn:Hbody; [|discriminate].
  exact (memo_is_shared_by_clients E 0 1 Examples.chat_object
           {| provider := "openai"; model_type := "text"; system_prompt := None;
              kwargs := kwargs Examples.chat_object; history := [] |}
           "hello" None [] w w1 r eq_refl ltac:(discriminate) eq_refl eq_refl eq_refl eq_refl
           Hbody).
Defined.

(** ** The cache key tells requests apart *)

Lemma string_app_assoc (a b c : string) : (a +:+ b) +:+ c = a +:+ (b +:+ c).
Proof.
  induction a as [|x a IH]; [reflexivity|].
  change (String x ((a +:+ b) +:+ c) = String x (a +:+ (b +:+ c))). rewrite IH. reflexivity.
Qed.

Lemma string_app_nil_r (a : string) : a +:+ "" = a.
Proof.
  induction a as [|x a IH]; [reflexivity|].
  change (String x (a +:+ "") = String x a). rewrite IH. reflexivity.
Qed.

(** One escaped character is read back as the character. *)
Lemma unquote_body_escape_char (c : ascii) (t : string) :
  unquote_body (Json.escape_char c +:+ t)
  = match unquote_body t with
    | Some (v, r) => Some (String c v, r)
    | None => None
    end.
Proof.
  destruct c as [[] [] [] [] [] [] [] []]; reflexivity.
Qed.

Lemma unquote_body_escape (s rest : string) :
  unquote_body (Json.escape s +:+ String Json.dquote rest) = Some (s, rest).
Proof.
  induction s as [|c s IH]; [reflexivity|].
  change (Json.escape (String c s)) with (Json.escape_char c +:+ Json.escape s).
  rewrite string_app_assoc, unquote_body_escape_char, IH. reflexivity.
Qed.

(** A string literal is read back, whatever follows it. *)
Lemma unquote_quote (s rest : string) : unquote (Json.quote s +:+ rest) = Some (s, rest).
Proof.
  unfold Json.quote.
  change (String Json.dquote (Json.escape s +:+ String Json.dquote "") +:+ rest)
    with (String Json.dquote ((Json.escape s +:+ String Json.dquote "") +:+ rest)).
  rewrite string_app_assoc.
  change (String Json.dquote "" +:+ rest) with (String Json.dquote rest).
  cbn [unquote]. change (Ascii.eqb Json.dquote Json.dquote) with true. cbn iota.
  apply unquote_body_escape.
Qed.

Lemma join_cons (sep x : string) (l : list string) :
  l <> [] -> Json.join sep (x :: l) = x +:+ sep +:+ Json.join sep l.
Proof. destruct l; [congruence|reflexivity]. Qed.

Lemma dict_set_nonempty (k : string) (v : value) (d : dict) : Dict.set k v d <> [].
Proof.
  destruct d as [|[k0 v0] d]; cbn [Dict.set]; [discriminate|].
  destruct (String.eqb k k0); discriminate.
Qed.

(** Where a dictionary is serialized, the value written under [k] stands
    between two texts that do not depend on it. *)
Lemma join_set_shape (fr : PrimFloat.float -> string) (k : string) (d : dict) :
  exists pre post, forall v,
    Json.join ", "
      (List.map (fun '(k, x) => Json.quote k +:+ ": " +:+ Json.dumps fr x) (Dict.set k v d))
    = pre +:+ Json.dumps fr v +:+ post.
Proof.
  induction d as [|[k0 v0] d IH].
  - exists (Json.quote k +:+ ": "), "". intros v. cbn [Dict.set List.map Json.join].
    rewrite string_app_assoc, string_app_nil_r. reflexivity.
  - cbn [Dict.set]. destruct (String.eqb k k0).
    + destruct d as [|p d].
      * exists (Json.quote k0 +:+ ": "), "". intros v. cbn [List.map Json.join].
        rewrite string_app_assoc, string_app_nil_r. reflexivity.
      * eexists (Json.quote k0 +:+ ": "), _. intros v.
        cbn [List.map]. rewrite join_cons by discriminate.
        rewrite !string_app_assoc. reflexivity.
    + destruct IH as (pre & post & IH).
      exists ((Json.quote k0 +:+ ": " +:+ Json.dumps fr v0) +:+ ", " +:+ pre), post.
      intros v. cbn [List.map]. rewrite join_cons.
      * rewrite IH, !string_app_assoc. reflexivity.
      * intros Hnil. apply map_eq_nil in Hnil. exact (dict_set_nonempty _ _ _ Hnil).
Qed.

(** The key is the serialized message content between two texts that the
    client's options and the call's keyword arguments fix. *)
Lemma stringify_shape (E : Env) (o : GPT4Vision) (kw : dict) :
  exists pre post, forall content,
    stringify E (build_kwargs o content kw)
    = pre +:+ Json.dumps (float_repr E) content +:+ post.
Proof.
  unfold stringify, build_kwargs.
  destruct (join_set_shape (float_repr E) "messages" (Dict.merge (kwargs o) kw))
    as (pre & post & Hshape).
  destruct (str_truthy (system_prompt o)).
  - exists ("{" +:+ pre +:+ "["
             +:+ Json.dumps (float_repr E)
                   (VDict [("role", VStr "system");
                           ("content", VStr (default "" (system_prompt o)))])
             +:+ ", " +:+ "{"
             +:+ (Json.quote "role" +:+ ": " +:+ Json.quote "user") +:+ ", "
             +:+ Json.quote "content" +:+ ": "),
            ("}" +:+ "]" +:+ post +:+ "}").
    intros content. cbn [Json.dumps]. rewrite Hshape.
    cbn [Json.dumps List.map Json.join]. rewrite !string_app_assoc. reflexivity.
  - exists ("{" +:+ pre +:+ "[" +:+ "{"
             +:+ (Json.quote "role" +:+ ": " +:+ Json.quote "user") +:+ ", "
             +:+ Json.quote "content" +:+ ": "),
            ("}" +:+ "]" +:+ post +:+ "}").
    intros content. cbn [Json.dumps]. rewrite Hshape.
    cbn [Json.dumps List.map Json.join]. rewrite !string_app_assoc. reflexivity.
Qed.

(** The serialized content gives back the prompt and the image. *)
Lemma content_of_inj (fr : PrimFloat.float -> string) (p1 p2 : string)
    (img1 img2 : option Image) (post : string) :
  Json.dumps fr (content_of p1 img1) +:+ post = Json.dumps fr (content_of p2 img2) +:+ post ->
  p1 = p2 /\ img1 = img2.
Proof.
  destruct img1 as [[u1]|], img2 as [[u2]|];
    cbn [content_of image_url Json.dumps List.map Json.join]; rewrite ?string_app_assoc;
    intros H.
  - repeat match type of H with
           | ?a +:+ _ = ?a +:+ _ => apply (inj (String.append a)) in H
           end.
    pose proof (f_equal unquote H) as Hp. rewrite !unquote_quote in Hp.
    injection Hp as -> _.
    repeat match type of H with
           | ?a +:+ _ = ?a +:+ _ => apply (inj (String.append a)) in H
           end.
    apply (f_equal unquote) in H. rewrite !unquote_quote in H.
    injection H as ->. split; reflexivity.
  - apply (f_equal unquote) in H. rewrite unquote_quote in H. discriminate H.
  - apply (f_equal unquote) in H. rewrite unquote_quote in H. discriminate H.
  - apply (f_equal unquote) in H. rewrite !unquote_quote in H.
    injection H as ->. split; reflexivity.
Qed.

(** X16.  The cache key tells prompts and images apart, for prompts and
    image references written with characters below U+0100, which are the
    strings of this development: two requests of one client with the same
    keyword arguments that differ in the prompt or in the image have
    different keys.  (Beyond that range [json.dumps] writes a character
    above U+FFFF and the pair of its surrogates alike; such prompts are
    outside the statement.) *)
Theorem request_key_inj (E : Env) (o : GPT4Vision) (kw : dict) (p1 p2 : string)
    (img1 img2 : option Image) :
  (p1, img1) <> (p2, img2) ->
  request_key E o p1 img1 kw <> request_key E o p2 img2 kw.
Proof.
  unfold request_key. intros Hne H. apply Hne.
  destruct (stringify_shape E o
              (if Dict.mem "model_type" kw then Dict.del "model_type" kw else kw))
    as (pre & post & Hshape).
  rewrite !Hshape in H. apply (inj (String.append pre)) in H.
  destruct (content_of_inj _ _ _ _ _ _ H) as [-> ->]. reflexivity.
Qed.

(** A prompt that ends where the other goes on with an escaped quote, and
    the same prompt with and without an image. *)
Lemma request_key_inj_witness :
  let E := Demo.env true (Demo.answers Examples.three_choices 1) in
  request_key E Examples.chat_object "say" None [("seed", VInt 7)]
  <> request_key E Examples.chat_object ("say " +:+ String Json.dquote "hi") None
       [("seed", VInt 7)]
  /\ request_key E Examples.chat_object "say" None [("seed", VInt 7)]
     <> request_key E Examples.chat_object "say" (Some {| image_url := "cat.png" |})
          [("seed", VInt 7)].
Proof.
  intros E. split.
  - apply (request_key_inj E Examples.chat_object [("seed", VInt 7)] "say"
             ("say " +:+ String Json.dquote "hi") None None).
    vm_compute. discriminate.
  - apply (request_key_inj E Examples.chat_object [("seed", VInt 7)] "say" "say" None
             (Some {| image_url := "cat.png" |})).
    discriminate.
Defined.

(** X17.  A request fills no cache entry of a request with another prompt
    or image (written, as everywhere here, with characters below U+0100):
    a key that was in no store before is in no store afterwards. *)
Theorem other_requests_stay_uncached (E : Env) (o : GPT4Vision) (kw : dict)
    (p1 p2 : string) (img1 img2 : option Image) (w : world) :
  (p1, img1) <> (p2, img2) ->
  uncached (request_key E o p2 img2 kw) w ->
  uncached (request_key E o p2 img2 kw)
    (snd (chat_request E (request_key E o p1 img1 kw) w)).
Proof.
  intros Hne (Hl & Hn & Hd).
  assert (Hkey : request_key E o p2 img2 kw <> request_key E o p1 img1 kw).
  { intros Heq. apply Hne.
    destruct (stringify_shape E o
                (if Dict.mem "model_type" kw then Dict.del "model_type" kw else kw))
      as (pre & post & Hshape).
    unfold request_key in Heq. rewrite !Hshape in Heq.
    apply (inj (String.append pre)) in Heq.
    destruct (content_of_inj _ _ _ _ _ _ Heq) as [-> ->]. reflexivity. }
  set (key2 := request_key E o p2 img2 kw) in *.
  set (w1 := snd (chat_request E (request_key E o p1 img1 kw) w)).
  assert (Hnone : forall v, ~ cached w1 key2 v).
  { intros v Hc. destruct (chat_request_cached _ _ _ _ _ Hc) as [Hw|[Heq _]].
    - destruct Hw as [H|[H|H]]; congruence.
    - exact (Hkey Heq). }
  repeat split.
  - destruct (lru w1 !! key2) as [v|] eqn:Hv; [|reflexivity].
    exfalso. apply (Hnone v). left. exact Hv.
  - destruct (notebook_store w1 !! key2) as [v|] eqn:Hv; [|reflexivity].
    exfalso. apply (Hnone v). right. left. exact Hv.
  - destruct (disk_store w1 !! key2) as [v|] eqn:Hv; [|reflexivity].
    exfalso. apply (Hnone v). right. right. exact Hv.
Qed.

Lemma other_requests_stay_uncached_witness :
  let E := Demo.env true (Demo.answers Examples.three_choices 1) in
  uncached (request_key E Examples.chat_object "goodbye" None [])
    (snd (chat_request E (request_key E Examples.chat_object "hello" None []) fresh_world)).
Proof.
  intros E.
  apply (other_requests_stay_uncached E Examples.chat_object [] "hello" "goodbye" None None
           fresh_world).
  - discriminate.
  - repeat split; apply lookup_empty.
Defined.

(** ** The sorting block *)

Lemma fold_left_raise {A B} (f : A -> B -> result A) (l : list B) (e : exn) :
  fold_left (fun acc x => let+ a := acc in f a x) l (Raise e) = Raise e.
Proof. induction l as [|x l IH]; [reflexivity|]. exact IH. Qed.

Lemma insert_sorted_perm (x : float * value) (l r : list (float * value)) :
  insert_sorted x l = Ok r -> Permutation r (x :: l).
Proof.
  revert r. induction l as [|y l IH]; intros r H; cbn [insert_sorted] in H.
  - injection H as <-. reflexivity.
  - destruct (tuple_lt x y) as [[]|]; cbn [rbind] in H; try discriminate.
    + injection H as <-. reflexivity.
    + destruct (insert_sorted x l) as [r'|]; [|discriminate]. cbn [rbind] in H.
      injection H as <-. rewrite (IH r' eq_refl). apply perm_swap.
Qed.

Lemma fold_insert_perm (l acc s : list (float * value)) :
  fold_left (fun acc x => let+ a := acc in insert_sorted x a) l (Ok acc) = Ok s ->
  Permutation s (l ++ acc).
Proof.
  revert acc. induction l as [|x l IH]; intros acc H; cbn [fold_left rbind] in H.
  - injection H as <-. reflexivity.
  - destruct (insert_sorted x acc) as [r|e] eqn:Hins.
    + rewrite (IH r H). rewrite (insert_sorted_perm _ _ _ Hins).
      cbn [app]. symmetry. apply Permutation_middle.
    + rewrite (fold_left_raise (fun a x => insert_sorted x a)) in H. discriminate.
Qed.

Lemma sorted_reverse_perm (l s : list (float * value)) :
  sorted_reverse l = Ok s -> Permutation s l.
Proof.
  unfold sorted_reverse. intros H.
  destruct (fold_left _ (rev l) (Ok [])) as [s'|] eqn:Hfold; [|discriminate].
  cbn [rbind] in H. injection H as <-.
  rewrite <- (Permutation_rev s'), (fold_insert_perm _ _ _ Hfold), app_nil_r.
  symmetry. apply Permutation_rev.
Qed.

Lemma rmap_scored_texts (mt : string) (cs : list value) (ps : list (float * value)) :
  rmap (fun c =>
          let+ a := avglog c in
          let+ t := _get_choice_text mt c in
          Ok (a, t)) cs = Ok ps ->
  rmap (_get_choice_text mt) cs = Ok (List.map snd ps).
Proof.
  revert ps. induction cs as [|c cs IH]; intros ps H; cbn [rmap] in H |- *.
  - injection H as <-. reflexivity.
  - destruct (avglog c) as [a|]; [|discriminate]. cbn [rbind] in H.
    destruct (_get_choice_text mt c) as [t|]; [|discriminate]. cbn [rbind] in H |- *.
    destruct (rmap _ cs) as [ps'|]; [|discriminate]. cbn [rbind] in H.
    injection H as <-. rewrite (IH ps' eq_refl). reflexivity.
Qed.

(** X18.  Where the sorting block returns, it returns a rearrangement of
    the texts of the choices: none is dropped, none is added. *)
Theorem sorted_completions_permutes (mt : string) (choices texts : list value) :
  sorted_completions mt choices = Ok texts ->
  exists unsorted,
    rmap (_get_choice_text mt) choices = Ok unsorted /\ Permutation texts unsorted.
Proof.
  unfold sorted_completions. intros H.
  destruct (rmap _ choices) as [ps|] eqn:Hps; [|discriminate]. cbn [rbind] in H.
  destruct (sorted_reverse ps) as [s|] eqn:Hs; [|discriminate]. cbn [rbind] in H.
  injection H as <-. exists (List.map snd ps). split.
  - exact (rmap_scored_texts _ _ _ Hps).
  - apply Permutation_map. exact (sorted_reverse_perm _ _ Hs).
Qed.

Lemma sorted_completions_permutes_witness :
  exists unsorted,
    rmap (_get_choice_text "text") [Examples.low; Examples.high] = Ok unsorted
    /\ Permutation [VStr "high"; VStr "low"] unsorted.
Proof.
  exact (sorted_completions_permutes "text" [Examples.low; Examples.high]
           [VStr "high"; VStr "low"] eq_refl).
Defined.

(** X19.  The score of a choice reads the log-probabilities up to the
    first ["<|endoftext|>"] token and no further: two choices with the same
    tokens whose log-probabilities agree up to that token have the same
    score. *)
Theorem avglog_stops_at_endoftext (c c' lp lp' : value) (tokens logprobs logprobs' : list value)
    (i : nat) :
  Py.getitem c "logprobs" = Ok lp ->
  Py.getitem lp "tokens" = Ok (VList tokens) ->
  Py.getitem lp "token_logprobs" = Ok (VList logprobs) ->
  Py.getitem c' "logprobs" = Ok lp' ->
  Py.getitem lp' "tokens" = Ok (VList tokens) ->
  Py.getitem lp' "token_logprobs" = Ok (VList logprobs') ->
  Py.list_index "<|endoftext|>" tokens = Some i ->
  firstn (S i) logprobs = firstn (S i) logprobs' ->
  avglog c = avglog c'.
Proof.
  intros Hc Ht Hl Hc' Ht' Hl' Hi Hfirst. unfold avglog.
  rewrite Hc, Hc'. cbn [rbind]. rewrite Ht, Hl, Ht', Hl'. cbn [rbind Py.index_after].
  rewrite Hi. cbn [fmap option_fmap option_map rbind Py.slice_to].
  rewrite Hfirst. reflexivity.
Qed.

Lemma avglog_stops_at_endoftext_witness :
  avglog (Examples.text_choice "a" ["x"; "<|endoftext|>"; "y"] [-1.0; -2.0; -3.0]%float)
  = avglog (Examples.text_choice "a" ["x"; "<|endoftext|>"; "y"] [-1.0; -2.0; -9.0]%float).
Proof.
  exact (avglog_stops_at_endoftext
           (Examples.text_choice "a" ["x"; "<|endoftext|>"; "y"] [-1.0; -2.0; -3.0]%float)
           (Examples.text_choice "a" ["x"; "<|endoftext|>"; "y"] [-1.0; -2.0; -9.0]%float)
           (VDict [("tokens", VList [VStr "x"; VStr "<|endoftext|>"; VStr "y"]);
                   ("token_logprobs",
                    VList [VFloat (-1.0)%float; VFloat (-2.0)%float; VFloat (-3.0)%float])])
           (VDict [("tokens", VList [VStr "x"; VStr "<|endoftext|>"; VStr "y"]);
                   ("token_logprobs",
                    VList [VFloat (-1.0)%float; VFloat (-2.0)%float; VFloat (-9.0)%float])])
           [VStr "x"; VStr "<|endoftext|>"; VStr "y"]
           [VFloat (-1.0)%float; VFloat (-2.0)%float; VFloat (-3.0)%float]
           [VFloat (-1.0)%float; VFloat (-2.0)%float; VFloat (-9.0)%float] 1
           eq_refl eq_refl eq_refl eq_refl eq_refl eq_refl eq_refl eq_refl).
Defined.
